(** * json2csv: the JSON to CSV converter of [src/json2csv.py]

    A shallow embedding of the class [JSONToCSVConverter] and of the parts
    of the Python runtime it calls ([str], [repr], [str.strip],
    [str.split], [str.join], [dict], [sorted], [csv.DictWriter]), followed
    by the properties of the converter.

    Conventions.
    - A Python [str] is a [string]; each [ascii] stands for one code point,
      so the development covers texts whose code points are below 256.
    - A Python [dict] is an association list in insertion order, updated
      through [dict_set]; keys never repeat in a dict built that way.
    - A raised exception is a value of [exn]; a function that may raise
      returns a [result].
    - The output stream is the text written to it so far; the writer takes
      the stream and returns it extended. The stream accepts every text:
      a [write] that fails, as on a closed stream or one whose encoding
      lacks a character, is outside the model. *)

From Stdlib Require Import List String Ascii ZArith Bool Lia Arith
  Permutation Sorted DecimalString OrderedTypeEx.
From Stdlib Require Import DecimalPos DecimalZ.
Import ListNotations.
Local Open Scope list_scope.
Local Open Scope string_scope.

Set Implicit Arguments.
#[local] Set Warnings "-register-all".

(** ** Values *)

(** What [json.loads] builds. A float is carried by the text [repr] gives
    for it, which is all the converter ever asks of a float. *)
Inductive json : Type :=
| JNull
| JBool (b : bool)
| JInt (z : Z)
| JFloat (repr : string)
| JStr (s : string)
| JList (l : list json)
| JDict (d : list (string * json)).

Definition pydict := list (string * json).

Inductive exn : Type :=
| ValueError (msg : string)
| TypeError (msg : string)
| RecursionError (msg : string).

Inductive result (A : Type) : Type :=
| Ok (a : A)
| Raise (e : exn).
Arguments Raise {A} e.

Definition is_dict (v : json) : bool :=
  match v with JDict _ => true | _ => false end.

Definition is_list (v : json) : bool :=
  match v with JList _ => true | _ => false end.

(** ** Python strings *)

Module PyStr.

Definition chars (s : string) : list ascii := list_ascii_of_string s.
Definition of_chars (l : list ascii) : string := string_of_list_ascii l.

Definition code (c : ascii) : N := N_of_ascii c.

(** [c.isspace()], for code points below 256. *)
Definition isspace (c : ascii) : bool :=
  let n := code c in
  ((9 <=? n) && (n <=? 13) || (28 <=? n) && (n <=? 32)
   || (n =? 133) || (n =? 160))%N.

Fixpoint lstrip (s : string) : string :=
  match s with
  | String c s' => if isspace c then lstrip s' else s
  | EmptyString => EmptyString
  end.

(** The text without its trailing white space: a character is kept when
    something other than white space follows or it is not white space. *)
Fixpoint rstrip (s : string) : string :=
  match s with
  | String c s' =>
      match rstrip s' with
      | EmptyString => if isspace c then EmptyString else String c EmptyString
      | r => String c r
      end
  | EmptyString => EmptyString
  end.

(** [s.strip()] *)
Definition strip (s : string) : string := rstrip (lstrip s).

(** [s.split(sep)] for a one-character separator: the pieces between
    the separators, never an empty list. *)
Fixpoint split (sep : ascii) (s : string) : list string :=
  match s with
  | EmptyString => [EmptyString]
  | String c s' =>
      if Ascii.eqb c sep then EmptyString :: split sep s'
      else match split sep s' with
           | piece :: rest => String c piece :: rest
           | [] => [String c EmptyString]
           end
  end.

(** [sep.join(parts)] *)
Fixpoint join (sep : string) (parts : list string) : string :=
  match parts with
  | [] => EmptyString
  | [p] => p
  | p :: rest => p ++ sep ++ join sep rest
  end.

Definition contains (c : ascii) (s : string) : bool :=
  existsb (fun x => Ascii.eqb x c) (chars s).

(** [str(z)] for an integer. *)
Definition of_int (z : Z) : string := NilZero.string_of_int (Z.to_int z).

Definition of_nat (n : nat) : string := of_int (Z.of_nat n).

Definition hex_digit (n : N) : ascii :=
  ascii_of_N (if (n <? 10)%N then 48 + n else 87 + n)%N.

(** The escape [\xhh] of a code point. *)
Definition hex_escape (c : ascii) : string :=
  String "\" (String "x"
    (String (hex_digit (code c / 16)) (String (hex_digit (code c mod 16)) EmptyString))).

(** [c.isprintable()], for code points below 256. *)
Definition isprintable (c : ascii) : bool :=
  let n := code c in
  negb ((n <? 32) || (127 <=? n) && (n <=? 160) || (n =? 173))%N.

Definition squote : ascii := "'"%char.
Definition dquote : ascii := ascii_of_N 34.
Definition backslash : ascii := "\"%char.
Definition tab : ascii := ascii_of_N 9.
Definition lf : ascii := ascii_of_N 10.
Definition cr : ascii := ascii_of_N 13.

Definition repr_char (quote c : ascii) : string :=
  if Ascii.eqb c quote || Ascii.eqb c backslash then String backslash (String c EmptyString)
  else if Ascii.eqb c tab then String backslash "t"
  else if Ascii.eqb c lf then String backslash "n"
  else if Ascii.eqb c cr then String backslash "r"
  else if isprintable c then String c EmptyString
  else hex_escape c.

(** [repr(s)] for a string: single quotes, unless the text has a single
    quote and no double quote. *)
Definition repr (s : string) : string :=
  let quote := if contains squote s && negb (contains dquote s) then dquote else squote in
  String quote (concat EmptyString (map (repr_char quote) (chars s)))
    ++ String quote EmptyString.

End PyStr.

(** [repr(v)] of a decoded value. *)
Fixpoint py_repr (v : json) : string :=
  match v with
  | JNull => "None"
  | JBool true => "True"
  | JBool false => "False"
  | JInt z => PyStr.of_int z
  | JFloat r => r
  | JStr s => PyStr.repr s
  | JList l => "[" ++ PyStr.join ", " (map py_repr l) ++ "]"
  | JDict d =>
      "{" ++ PyStr.join ", "
               (map (fun kv => PyStr.repr (fst kv) ++ ": " ++ py_repr (snd kv)) d)
          ++ "}"
  end.

(** [str(v)] *)
Definition py_str (v : json) : string :=
  match v with
  | JStr s => s
  | _ => py_repr v
  end.

(** ** Python dicts and sets *)

Definition dict_get (d : pydict) (k : string) : option json :=
  option_map snd (find (fun kv => String.eqb (fst kv) k) d).

(** [d[k] = v]: a key already there keeps its place, a new key goes last. *)
Fixpoint dict_set (k : string) (v : json) (d : pydict) : pydict :=
  match d with
  | [] => [(k, v)]
  | (k', v') :: d' =>
      if String.eqb k' k then (k, v) :: d' else (k', v') :: dict_set k v d'
  end.

(** [d.update(other)] *)
Definition dict_update (d other : pydict) : pydict :=
  fold_left (fun acc kv => dict_set (fst kv) (snd kv) acc) other d.

(** [d.keys()] *)
Definition dict_keys (d : pydict) : list string := map fst d.

(** [d.get(k, default)] *)
Definition dict_get_default (d : pydict) (k : string) (default : json) : json :=
  match dict_get d k with
  | Some v => v
  | None => default
  end.

(** A [set] of strings: a list that holds no string twice. *)
Definition set_mem (k : string) (s : list string) : bool :=
  existsb (String.eqb k) s.

Definition set_add (s : list string) (k : string) : list string :=
  if set_mem k s then s else (s ++ [k])%list.

(** [s.update(keys)] *)
Definition set_update (s keys : list string) : list string :=
  fold_left set_add keys s.

(** [sorted] on strings, which compares them by code point, character by
    character. The strings of a set are distinct, so the outcome is the one
    increasing list of them, in whatever order the set yields them
    ([sorted_of_same_set] below). *)
Fixpoint insert_sorted (k : string) (l : list string) : list string :=
  match l with
  | [] => [k]
  | x :: l' => if String.leb k x then k :: l else x :: insert_sorted k l'
  end.

Definition sorted (l : list string) : list string :=
  fold_right insert_sorted [] l.

(** ** The converter's configuration: the fields [__init__] stores *)

Record JSONToCSVConverter : Type := {
  delimiter : string;
  fields : option (list string);
  no_header : bool;
  list_handling : string;
  join_string : string
}.

(** The defaults of [__init__]. *)
Definition default_converter : JSONToCSVConverter :=
  {| delimiter := ","; fields := None; no_header := false;
     list_handling := "join"; join_string := "|" |}.

(** The same converter with another list-handling policy, and with
    another field list. *)
Definition with_list_handling (self : JSONToCSVConverter) (policy : string)
    : JSONToCSVConverter :=
  {| delimiter := delimiter self; fields := fields self; no_header := no_header self;
     list_handling := policy; join_string := join_string self |}.

Definition with_fields (self : JSONToCSVConverter) (requested : option (list string))
    : JSONToCSVConverter :=
  {| delimiter := delimiter self; fields := requested; no_header := no_header self;
     list_handling := list_handling self; join_string := join_string self |}.

(** ** [_flatten_object] *)

(** [f"{prefix}.{key}" if prefix else key] *)
Definition new_key_of (prefix key : string) : string :=
  match prefix with
  | EmptyString => key
  | _ => prefix ++ "." ++ key
  end.

(** [for i, item in enumerate(value): flattened[f"{new_key}.{i}"] = item] *)
Fixpoint index_items (new_key : string) (i : nat) (value : list json)
    (flattened : pydict) : pydict :=
  match value with
  | [] => flattened
  | item :: rest =>
      index_items new_key (S i) rest
        (dict_set (new_key ++ "." ++ PyStr.of_nat i) item flattened)
  end.

(** What the loop body does with a list value. *)
Definition flatten_list (self : JSONToCSVConverter) (new_key : string)
    (value : list json) (flattened : pydict) : pydict :=
  if String.eqb (list_handling self) "join" then
    dict_set new_key (JStr (PyStr.join (join_string self) (map py_str value))) flattened
  else if String.eqb (list_handling self) "index" then
    index_items new_key 0 value flattened
  else
    dict_set new_key (JList value) flattened.

(** The recursion runs on the value that holds the object; the inner loop
    is the [for key, value in obj.items()] of the source, [flattened] its
    local dict. A value that is no object has no items. *)
Fixpoint flatten_value (self : JSONToCSVConverter) (v : json) (prefix : string)
    {struct v} : pydict :=
  match v with
  | JDict obj =>
      (fix items (obj : list (string * json)) (flattened : pydict) : pydict :=
         match obj with
         | [] => flattened
         | (key, value) :: obj' =>
             let new_key := new_key_of prefix key in
             items obj'
               match value with
               | JDict _ => dict_update flattened (flatten_value self value new_key)
               | JList l => flatten_list self new_key l flattened
               | _ => dict_set new_key value flattened
               end
         end) obj []
  | _ => []
  end.

Definition _flatten_object (self : JSONToCSVConverter) (obj : pydict)
    (prefix : string) : pydict :=
  flatten_value self (JDict obj) prefix.

(** One turn of the loop of [_flatten_object], as the source writes it. *)
Definition flatten_item (self : JSONToCSVConverter) (prefix : string)
    (flattened : pydict) (item : string * json) : pydict :=
  let new_key := new_key_of prefix (fst item) in
  match snd item with
  | JDict d => dict_update flattened (_flatten_object self d new_key)
  | JList l => flatten_list self new_key l flattened
  | value => dict_set new_key value flattened
  end.

(** ** [_json_to_records] *)

Definition _json_to_records (self : JSONToCSVConverter) (json_data : list json)
    : list pydict :=
  fold_left
    (fun records item =>
       match item with
       | JDict d => (records ++ [_flatten_object self d ""])%list
       | _ => (records ++ [[("value", item)]])%list
       end)
    json_data [].

(** ** [_filter_fields] *)

Definition filter_record (fields : list string) (record : pydict) : pydict :=
  fold_left
    (fun filtered_record field =>
       match dict_get record field with
       | Some v => dict_set field v filtered_record
       | None => dict_set field JNull filtered_record
       end)
    fields [].

Definition _filter_fields (records : list pydict) (fields : list string)
    : list pydict :=
  fold_left (fun filtered_records record =>
               (filtered_records ++ [filter_record fields record])%list)
    records [].

(** ** The library functions the converter calls *)

(** The outcome of [json.loads]: the value, the text of the
    [JSONDecodeError] it raises, or another exception it raises (a
    [ValueError] on an integer of more digits than the interpreter
    converts, a [RecursionError] on nesting too deep), which no
    [except json.JSONDecodeError] catches. *)
Inductive decoded : Type :=
| Decoded (v : json)
| JSONDecodeError (msg : string)
| Raised (e : exn).

(** What the converter takes from the interpreter's library and this
    development leaves open:
    - [json_loads], the decoder;
    - [csv_check_delimiter], the checks the csv module makes on a
      one-character delimiter beyond its length (none up to CPython 3.12);
    - [csv_quotes_cr], whether the csv writer quotes a carriage return
      whatever the line terminator is (it does not up to CPython 3.12). *)
Record runtime : Type := {
  json_loads : string -> decoded;
  csv_check_delimiter : ascii -> option exn;
  csv_quotes_cr : bool
}.

(** Output: the text written so far goes in, the text written and the
    outcome come out. *)
Definition io (A : Type) : Type := string -> string * result A.

Definition ret {A : Type} (a : A) : io A := fun out => (out, Ok a).

Definition bind {A B : Type} (m : io A) (k : A -> io B) : io B :=
  fun out =>
    match m out with
    | (out', Ok a) => k a out'
    | (out', Raise e) => (out', Raise e)
    end.

(** [output_stream.write(text)], on a stream that accepts every text. *)
Definition write (text : string) : io unit := fun out => (out ++ text, Ok tt).

(** A computation that writes nothing. *)
Definition lift {A : Type} (r : result A) : io A := fun out => (out, r).

Notation "x <- m ;; k" := (bind m (fun x => k))
  (at level 61, m at next level, right associativity).
Notation "m ;;; k" := (bind m (fun _ => k))
  (at level 61, right associativity).

(** [for x in l: body(x)] *)
Fixpoint for_each {A : Type} (l : list A) (body : A -> io unit) : io unit :=
  match l with
  | [] => ret tt
  | x :: l' => body x ;;; for_each l' body
  end.

(** [lit s] is [s] with each apostrophe read as a double quote. *)
Definition lit (s : string) : string :=
  PyStr.of_chars
    (map (fun c => if Ascii.eqb c PyStr.squote then PyStr.dquote else c) (PyStr.chars s)).

Section Converter.

Variable py : runtime.
Variable self : JSONToCSVConverter.

(** ** [_parse_ndjson] and [_parse_json] *)

(** The loop of [_parse_ndjson] from line number [line_num] on. *)
Fixpoint ndjson_lines (line_num : nat) (lines : list string) (records : list json)
    : result (list json) :=
  match lines with
  | [] => Ok records
  | line :: rest =>
      match PyStr.strip line with
      | EmptyString => ndjson_lines (S line_num) rest records
      | line =>
          match json_loads py line with
          | Decoded record =>
              if is_dict record
              then ndjson_lines (S line_num) rest (records ++ [record])%list
              else Raise (ValueError
                            ("Line " ++ PyStr.of_nat line_num ++ ": Expected JSON object"))
          | JSONDecodeError e =>
              Raise (ValueError
                       ("Line " ++ PyStr.of_nat line_num ++ ": Invalid JSON - " ++ e))
          | Raised e => Raise e
          end
      end
  end.

Definition _parse_ndjson (content : string) : result (list json) :=
  ndjson_lines 1 (PyStr.split PyStr.lf (PyStr.strip content)) [].

(** [input_text] is what [input_stream.read()] returns. *)
Definition _parse_json (input_text : string) : result (list json) :=
  match PyStr.strip input_text with
  | EmptyString => Ok []
  | content =>
      match json_loads py content with
      | Decoded (JList data) => Ok data
      | Decoded (JDict d) => Ok [JDict d]
      | Decoded _ => Raise (ValueError "JSON must be an object or array")
      | JSONDecodeError _ => _parse_ndjson content
      | Raised e => Raise e
      end
  end.

(** ** [csv.DictWriter] with [QUOTE_MINIMAL], the double quote as quote
    character, no escape character, double quoting and a line feed as
    line terminator *)

Definition quotechar : ascii := PyStr.dquote.
Definition lineterminator : string := String PyStr.lf EmptyString.

(** The dialect check on the delimiter. *)
Definition csv_dialect (delimiter : string) : result ascii :=
  match delimiter with
  | String c EmptyString =>
      match csv_check_delimiter py c with
      | Some e => Raise e
      | None => Ok c
      end
  | _ => Raise (TypeError (lit "'delimiter' must be a 1-character string"))
  end.

(** The characters that make the writer quote a field. *)
Definition csv_special (d c : ascii) : bool :=
  Ascii.eqb c d || Ascii.eqb c quotechar || PyStr.contains c lineterminator
  || (csv_quotes_cr py && Ascii.eqb c PyStr.cr).

(** The scan of one field: the characters to copy, a quote character
    added before each quote character, and whether the field is to be
    quoted. *)
Fixpoint join_append_data (d : ascii) (field : string) (quoted : bool)
    : string * bool :=
  match field with
  | EmptyString => (EmptyString, quoted)
  | String c field' =>
      if csv_special d c then
        let (data, q) := join_append_data d field' true in
        (if Ascii.eqb c quotechar then String quotechar (String c data)
         else String c data, q)
      else
        let (data, q) := join_append_data d field' quoted in
        (String c data, q)
  end.

(** One more field on the record under construction: [rec] is the text
    so far, [num_fields] the number of fields in it. *)
Definition join_append (d : ascii) (rec : string) (num_fields : nat)
    (field : string) (quoted : bool) : string :=
  let rec := match num_fields with
             | O => rec
             | S _ => rec ++ String d EmptyString
             end in
  let (data, q) := join_append_data d field quoted in
  if q then rec ++ String quotechar data ++ String quotechar EmptyString
  else rec ++ data.

(** The text of a field: a string as it is, [None] as nothing, any other
    value through [str]. *)
Definition csv_field (v : json) : string :=
  match v with
  | JNull => EmptyString
  | _ => py_str v
  end.

(** The text [writer.writerow(row)] builds: the fields joined by the
    delimiter, a record of one empty field as a pair of quote characters,
    then the line terminator. *)
Definition writer_record (d : ascii) (row : list json) : string :=
  let '(rec, num_fields) :=
    fold_left
      (fun st field =>
         (join_append d (fst st) (snd st) (csv_field field) false, S (snd st)))
      row (EmptyString, O) in
  let rec :=
    match num_fields, rec with
    | S _, EmptyString => join_append d rec O EmptyString true
    | _, _ => rec
    end in
  rec ++ lineterminator.

Definition writer_writerow (d : ascii) (row : list json) : io unit :=
  write (writer_record d row).

(** [DictWriter._dict_to_list], with [restval] the empty string and
    [extrasaction] ['raise']. *)
Definition _dict_to_list (fieldnames : list string) (rowdict : pydict)
    : result (list json) :=
  match filter (fun k => negb (set_mem k fieldnames)) (dict_keys rowdict) with
  | [] => Ok (map (fun key => dict_get_default rowdict key (JStr EmptyString)) fieldnames)
  | wrong_fields =>
      Raise (ValueError ("dict contains fields not in fieldnames: "
                         ++ PyStr.join ", " (map PyStr.repr wrong_fields)))
  end.

Definition DictWriter_writerow (d : ascii) (fieldnames : list string)
    (rowdict : pydict) : io unit :=
  row <- lift (_dict_to_list fieldnames rowdict) ;;
  writer_writerow d row.

(** [dict(zip(fieldnames, fieldnames))] *)
Definition header_dict (fieldnames : list string) : pydict :=
  fold_left (fun header k => dict_set k (JStr k) header) fieldnames [].

Definition DictWriter_writeheader (d : ascii) (fieldnames : list string) : io unit :=
  DictWriter_writerow d fieldnames (header_dict fieldnames).

(** ** [_write_csv] *)

(** The column names: the keys of all records, sorted. *)
Definition csv_fieldnames (records : list pydict) : list string :=
  sorted (fold_left (fun fieldnames record => set_update fieldnames (dict_keys record))
            records []).

Definition _write_csv (records : list pydict) : io unit :=
  match records with
  | [] => ret tt
  | _ =>
      let fieldnames := csv_fieldnames records in
      d <- lift (csv_dialect (delimiter self)) ;;
      (if no_header self then ret tt else DictWriter_writeheader d fieldnames) ;;;
      for_each records (DictWriter_writerow d fieldnames)
  end.

(** ** [convert] *)

Definition convert (input_text : string) : io unit :=
  json_data <- lift (_parse_json input_text) ;;
  let records := _json_to_records self json_data in
  let records :=
    match fields self with
    | Some (f :: fs) => _filter_fields records (f :: fs)
    | _ => records
    end in
  _write_csv records.

End Converter.

(** ** A decoder for the examples

    [Sample.loads] decodes the fragment of JSON the examples below are
    written in (null, true, false, integers, strings with the
    one-character escapes, arrays, objects); on a malformed document of
    the fragment it gives the message of [json.loads], position included.
    Numbers with a fraction or an exponent, [NaN], [Infinity] and [\u]
    escapes lie outside the fragment and are reported as errors. The
    theorems hold for every decoder; this one instantiates them. *)

Module Sample.

Inductive scan (A : Type) : Type :=
| Scanned (a : A) (rest : string) (pos : nat)
| ScanError (msg : string) (pos : nat).
Arguments ScanError {A} msg pos.

Definition is_ws (c : ascii) : bool :=
  Ascii.eqb c " " || Ascii.eqb c PyStr.tab || Ascii.eqb c PyStr.lf || Ascii.eqb c PyStr.cr.

Fixpoint skip_ws (s : string) (pos : nat) : string * nat :=
  match s with
  | String c s' => if is_ws c then skip_ws s' (S pos) else (s, pos)
  | EmptyString => (s, pos)
  end.

Definition is_digit (c : ascii) : bool :=
  let n := PyStr.code c in ((48 <=? n) && (n <=? 57))%N.

Fixpoint scan_digits (s : string) (pos : nat) (acc : Z) : Z * string * nat :=
  match s with
  | String c s' =>
      if is_digit c
      then scan_digits s' (S pos) (10 * acc + Z.of_N (PyStr.code c) - 48)%Z
      else (acc, s, pos)
  | EmptyString => (acc, s, pos)
  end.

Definition unescape (c : ascii) : option ascii :=
  if Ascii.eqb c PyStr.dquote || Ascii.eqb c PyStr.backslash || Ascii.eqb c "/"
  then Some c
  else if Ascii.eqb c "b" then Some (ascii_of_N 8)
  else if Ascii.eqb c "f" then Some (ascii_of_N 12)
  else if Ascii.eqb c "n" then Some PyStr.lf
  else if Ascii.eqb c "r" then Some PyStr.cr
  else if Ascii.eqb c "t" then Some PyStr.tab
  else None.

(** The text of a string literal, from after its opening quote, which is
    at [begin]. *)
Fixpoint scanstring (s : string) (pos begin : nat) : scan string :=
  match s with
  | EmptyString => ScanError "Unterminated string starting at" begin
  | String c s' =>
      if Ascii.eqb c PyStr.dquote then Scanned EmptyString s' (S pos)
      else if Ascii.eqb c PyStr.backslash then
        match s' with
        | EmptyString => ScanError "Unterminated string starting at" begin
        | String e s'' =>
            match unescape e with
            | None => ScanError "Invalid \escape" pos
            | Some c' =>
                match scanstring s'' (S (S pos)) begin with
                | Scanned text rest pos' => Scanned (String c' text) rest pos'
                | ScanError msg p => ScanError msg p
                end
            end
        end
      else if (PyStr.code c <? 32)%N then ScanError "Invalid control character at" pos
      else
        match scanstring s' (S pos) begin with
        | Scanned text rest pos' => Scanned (String c text) rest pos'
        | ScanError msg p => ScanError msg p
        end
  end.

Definition starts_with (p s : string) : option string :=
  if String.prefix p s then Some (substring (length p) (length s - length p) s)
  else None.

Definition scan_literal (word : string) (v : json) (s : string) (pos : nat)
    : scan json :=
  match starts_with word s with
  | Some rest => Scanned v rest (pos + length word)
  | None => ScanError "Expecting value" pos
  end.

(** An integer literal; [s] starts with a digit or a minus sign. *)
Definition scan_number (s : string) (pos : nat) : scan json :=
  let '(neg, s1, pos1) :=
    match s with
    | String "-" s' => (true, s', S pos)
    | _ => (false, s, pos)
    end in
  match s1 with
  | String c s2 =>
      if is_digit c then
        let '(z, rest, pos') :=
          if Ascii.eqb c "0" then (0%Z, s2, S pos1) else scan_digits s1 pos1 0 in
        match rest with
        | String "." _ | String "e" _ | String "E" _ =>
            ScanError "number outside the fragment" pos
        | _ => Scanned (JInt (if neg then - z else z)) rest pos'
        end
      else ScanError "Expecting value" pos
  | EmptyString => ScanError "Expecting value" pos
  end.

Definition expecting_name : string :=
  "Expecting property name enclosed in double quotes".

(** [scan_once] reads a value, [scan_items] the elements of an array and
    [scan_pairs] the members of an object, each from the first character
    of the next element; [fuel] bounds the number of nested calls. *)
Fixpoint scan_once (fuel : nat) (s : string) (pos : nat) : scan json :=
  match fuel with
  | O => ScanError "out of fuel" pos
  | S fuel =>
      match s with
      | EmptyString => ScanError "Expecting value" pos
      | String c s' =>
          if Ascii.eqb c PyStr.dquote then
            match scanstring s' (S pos) pos with
            | Scanned text rest pos' => Scanned (JStr text) rest pos'
            | ScanError msg p => ScanError msg p
            end
          else if Ascii.eqb c "{" then
            let (s1, pos1) := skip_ws s' (S pos) in
            match s1 with
            | String "}" rest => Scanned (JDict []) rest (S pos1)
            | _ =>
                match scan_pairs fuel s1 pos1 [] with
                | Scanned d rest pos' => Scanned (JDict d) rest pos'
                | ScanError msg p => ScanError msg p
                end
            end
          else if Ascii.eqb c "[" then
            let (s1, pos1) := skip_ws s' (S pos) in
            match s1 with
            | String "]" rest => Scanned (JList []) rest (S pos1)
            | _ =>
                match scan_items fuel s1 pos1 [] with
                | Scanned l rest pos' => Scanned (JList l) rest pos'
                | ScanError msg p => ScanError msg p
                end
            end
          else if Ascii.eqb c "n" then scan_literal "null" JNull s pos
          else if Ascii.eqb c "t" then scan_literal "true" (JBool true) s pos
          else if Ascii.eqb c "f" then scan_literal "false" (JBool false) s pos
          else if Ascii.eqb c "-" || is_digit c then scan_number s pos
          else ScanError "Expecting value" pos
      end
  end

with scan_items (fuel : nat) (s : string) (pos : nat) (values : list json)
    : scan (list json) :=
  match fuel with
  | O => ScanError "out of fuel" pos
  | S fuel =>
      match scan_once fuel s pos with
      | ScanError msg p => ScanError msg p
      | Scanned value s1 pos1 =>
          let values := (values ++ [value])%list in
          let (s2, pos2) := skip_ws s1 pos1 in
          match s2 with
          | String "]" rest => Scanned values rest (S pos2)
          | String "," s3 =>
              let (s4, pos4) := skip_ws s3 (S pos2) in
              scan_items fuel s4 pos4 values
          | _ => ScanError "Expecting ',' delimiter" pos2
          end
      end
  end

with scan_pairs (fuel : nat) (s : string) (pos : nat) (pairs : pydict)
    : scan pydict :=
  match fuel with
  | O => ScanError "out of fuel" pos
  | S fuel =>
      match s with
      | String c s0 =>
          if Ascii.eqb c PyStr.dquote then
            match scanstring s0 (S pos) pos with
            | ScanError msg p => ScanError msg p
            | Scanned key s1 pos1 =>
                let (s2, pos2) := skip_ws s1 pos1 in
                match s2 with
                | String ":" s3 =>
                    let (s4, pos4) := skip_ws s3 (S pos2) in
                    match scan_once fuel s4 pos4 with
                    | ScanError msg p => ScanError msg p
                    | Scanned value s5 pos5 =>
                        let pairs := dict_set key value pairs in
                        let (s6, pos6) := skip_ws s5 pos5 in
                        match s6 with
                        | String "}" rest => Scanned pairs rest (S pos6)
                        | String "," s7 =>
                            let (s8, pos8) := skip_ws s7 (S pos6) in
                            scan_pairs fuel s8 pos8 pairs
                        | _ => ScanError "Expecting ',' delimiter" pos6
                        end
                    end
                | _ => ScanError "Expecting ':' delimiter" pos2
                end
            end
          else ScanError expecting_name pos
      | EmptyString => ScanError expecting_name pos
      end
  end.

(** The line and column of position [pos] in [doc], both from 1. *)
Fixpoint line_column (doc : string) (pos line col : nat) : nat * nat :=
  match pos, doc with
  | S pos', String c doc' =>
      if Ascii.eqb c PyStr.lf then line_column doc' pos' (S line) 1
      else line_column doc' pos' line (S col)
  | _, _ => (line, col)
  end.

(** [str(e)] of the [JSONDecodeError] for [msg] at [pos]. *)
Definition error_text (doc msg : string) (pos : nat) : string :=
  let (line, col) := line_column doc pos 1 1 in
  msg ++ ": line " ++ PyStr.of_nat line ++ " column " ++ PyStr.of_nat col
      ++ " (char " ++ PyStr.of_nat pos ++ ")".

Definition loads (doc : string) : decoded :=
  let (s, pos) := skip_ws doc 0 in
  match scan_once (2 * length doc + 2) s pos with
  | ScanError msg p => JSONDecodeError (error_text doc msg p)
  | Scanned v rest pos' =>
      match skip_ws rest pos' with
      | (EmptyString, _) => Decoded v
      | (_, p) => JSONDecodeError (error_text doc "Extra data" p)
      end
  end.

End Sample.

(** The library as in CPython 3.11, with the decoder of the examples. *)
Definition sample_runtime : runtime :=
  {| json_loads := Sample.loads;
     csv_check_delimiter := fun _ => None;
     csv_quotes_cr := false |}.

(** ** Notions the statements use *)

(** Strings by code point, character by character. *)
Definition str_lt : string -> string -> Prop := String_as_OT.lt.

(** A dict whose values are no objects. *)
Definition no_object_value (d : pydict) : Prop :=
  Forall (fun kv => is_dict (snd kv) = false) d.

(** No list met while descending through objects holds an object. *)
Fixpoint no_object_in_lists (v : json) : bool :=
  match v with
  | JDict d => forallb (fun kv => no_object_in_lists (snd kv)) d
  | JList l => forallb (fun x => negb (is_dict x)) l
  | _ => true
  end.

(** The record [_json_to_records] makes of one item. *)
Definition record_of (self : JSONToCSVConverter) (item : json) : pydict :=
  match item with
  | JDict d => _flatten_object self d ""
  | _ => [("value", item)]
  end.

(** A line the loop of [_parse_ndjson] passes: blank, or an object. *)
Definition passes (py : runtime) (line : string) : Prop :=
  PyStr.strip line = EmptyString
  \/ exists d, json_loads py (PyStr.strip line) = Decoded (JDict d).

(** [reordered v w]: [w] is [v] with the members of its objects, at any
    depth reached through objects, in another order. *)
Inductive reordered : json -> json -> Prop :=
| reordered_same (v : json) : reordered v v
| reordered_dict (d d' d'' : list (string * json)) :
    Forall2 (fun kv kv' => fst kv = fst kv' /\ reordered (snd kv) (snd kv')) d d' ->
    Permutation d' d'' ->
    reordered (JDict d) (JDict d'').

(** The assignments [index_items] makes, in order. *)
Fixpoint index_pairs (new_key : string) (i : nat) (value : list json) : pydict :=
  match value with
  | [] => []
  | item :: rest => (new_key ++ "." ++ PyStr.of_nat i, item) :: index_pairs new_key (S i) rest
  end.

(** The assignments one turn of the loop of [_flatten_object] makes to
    [flattened], in order. *)
Definition item_writes (self : JSONToCSVConverter) (prefix : string)
    (item : string * json) : pydict :=
  let new_key := new_key_of prefix (fst item) in
  match snd item with
  | JDict d => _flatten_object self d new_key
  | JList l =>
      if String.eqb (list_handling self) "join" then
        [(new_key, JStr (PyStr.join (join_string self) (map py_str l)))]
      else if String.eqb (list_handling self) "index" then index_pairs new_key 0 l
      else [(new_key, JList l)]
  | value => [(new_key, value)]
  end.

(** The rows [_write_csv] hands to the writer: the header unless it is
    suppressed, then one row per record, a missing column as the empty
    string. *)
Definition csv_rows (self : JSONToCSVConverter) (fieldnames : list string)
    (records : list pydict) : list (list json) :=
  ((if no_header self then [] else [map JStr fieldnames])
   ++ map (fun record =>
             map (fun key => dict_get_default record key (JStr EmptyString)) fieldnames)
        records)%list.

(** Minimal quoting as the specification words it, with the one case the
    writer adds: a cell is quoted when its text holds the delimiter, a
    double quote or a line break, or when it is empty and alone in its
    row. The carriage return counts as a line break where the runtime
    says so. *)
Definition spec_quoted (py : runtime) (d : ascii) (row_length : nat)
    (text : string) : bool :=
  PyStr.contains d text || PyStr.contains PyStr.dquote text
  || PyStr.contains PyStr.lf text
  || (csv_quotes_cr py && PyStr.contains PyStr.cr text)
  || ((row_length =? 1)%nat && (text =? EmptyString)).

(** The text with each double quote doubled. *)
Fixpoint double_quotes (text : string) : string :=
  match text with
  | EmptyString => EmptyString
  | String c text' =>
      if Ascii.eqb c PyStr.dquote
      then String PyStr.dquote (String PyStr.dquote (double_quotes text'))
      else String c (double_quotes text')
  end.

Definition spec_cell (py : runtime) (d : ascii) (row_length : nat)
    (text : string) : string :=
  if spec_quoted py d row_length text
  then String PyStr.dquote (double_quotes text) ++ String PyStr.dquote EmptyString
  else text.

Definition spec_row (py : runtime) (d : ascii) (row : list json) : string :=
  PyStr.join (String d EmptyString)
    (map (fun v => spec_cell py d (List.length row) (csv_field v)) row)
  ++ String PyStr.lf EmptyString.

(** The text of a field as the writer puts it in a record that has other
    fields or other text. *)
Definition csv_cell (py : runtime) (d : ascii) (text : string) : string :=
  if existsb (csv_special py d) (PyStr.chars text)
  then String PyStr.dquote (double_quotes text) ++ String PyStr.dquote EmptyString
  else text.

(** The texts of the rows, one after the other. *)
Definition written (rows : list string) : string :=
  fold_right append EmptyString rows.

(** The quoting rule without the lone empty cell. *)
Definition claimed_cell (py : runtime) (d : ascii) (text : string) : string :=
  if PyStr.contains d text || PyStr.contains PyStr.dquote text
     || PyStr.contains PyStr.lf text
     || (csv_quotes_cr py && PyStr.contains PyStr.cr text)
  then String PyStr.dquote (double_quotes text) ++ String PyStr.dquote EmptyString
  else text.

Definition claimed_row (py : runtime) (d : ascii) (row : list json) : string :=
  PyStr.join (String d EmptyString) (map (fun v => claimed_cell py d (csv_field v)) row)
  ++ String PyStr.lf EmptyString.

(** A line feed, to write texts of several lines. *)
Definition LF : string := String PyStr.lf EmptyString.

(** Induction on values that reaches into lists and objects. *)
Section JsonInduction.

Variable P : json -> Prop.
Hypothesis HNull : P JNull.
Hypothesis HBool : forall b, P (JBool b).
Hypothesis HInt : forall z, P (JInt z).
Hypothesis HFloat : forall r, P (JFloat r).
Hypothesis HStr : forall s, P (JStr s).
Hypothesis HList : forall l, Forall P l -> P (JList l).
Hypothesis HDict : forall d, Forall (fun kv => P (snd kv)) d -> P (JDict d).

Fixpoint json_nested_ind (v : json) : P v :=
  match v with
  | JNull => HNull
  | JBool b => HBool b
  | JInt z => HInt z
  | JFloat r => HFloat r
  | JStr s => HStr s
  | JList l =>
      HList ((fix all (l : list json) : Forall P l :=
                match l with
                | [] => Forall_nil P
                | x :: l' => Forall_cons x (json_nested_ind x) (all l')
                end) l)
  | JDict d =>
      HDict ((fix all (d : list (string * json)) : Forall (fun kv => P (snd kv)) d :=
                match d with
                | [] => Forall_nil _
                | kv :: d' => Forall_cons kv (json_nested_ind (snd kv)) (all d')
                end) d)
  end.

End JsonInduction.

(** ** [parse_arguments] and [main]

    [parser.parse_args()] belongs to argparse; what it returns, or the
    [SystemExit] it raises after printing its own message, is where the
    model starts. *)

Module Args.


End Args.

(** The end of [parse_arguments]: a non-empty [--fields] text becomes the
    list of its pieces between commas, each stripped. An empty text stays
    what it is, which is false where [convert] tests it, as the empty list
    is. *)
Definition requested_fields (fields : option string) : option (list string) :=
  match fields with
  | None => None
  | Some EmptyString => Some []
  | Some text => Some (map PyStr.strip (PyStr.split "," text))
  end.






(** ** More notions the statements use *)

(** A value that is neither an object nor a list. *)
Definition is_scalar (v : json) : bool := negb (is_dict v) && negb (is_list v).

(** The objects of the lines that are not blank, in order. *)
Definition line_objects (py : runtime) (lines : list string) : list json :=
  flat_map
    (fun line =>
       match PyStr.strip line with
       | EmptyString => []
       | text =>
           match json_loads py text with
           | Decoded v => [v]
           | JSONDecodeError _ => []
           | Raised _ => []
           end
       end)
    lines.

(** The same converter with the header written or not. *)
Definition with_no_header (self : JSONToCSVConverter) (flag : bool)
    : JSONToCSVConverter :=
  {| delimiter := delimiter self; fields := fields self; no_header := flag;
     list_handling := list_handling self; join_string := join_string self |}.

(** The same converter with another delimiter. *)
Definition with_delimiter (self : JSONToCSVConverter) (text : string)
    : JSONToCSVConverter :=
  {| delimiter := text; fields := fields self; no_header := no_header self;
     list_handling := list_handling self; join_string := join_string self |}.

(** * Properties *)

Unset Implicit Arguments.

(** ** Loops that append *)

Lemma fold_left_pointwise {A B : Type} (f g : A -> B -> A) l :
  (forall a b, f a b = g a b) -> forall a, fold_left f l a = fold_left g l a.
Proof.
  intros Hfg. induction l as [|b l IH]; intros a; simpl.
  - reflexivity.
  - rewrite Hfg. apply IH.
Qed.

Lemma append_loop {A B : Type} (g : A -> B) l :
  forall acc, fold_left (fun acc x => (acc ++ [g x])%list) l acc = (acc ++ map g l)%list.
Proof.
  induction l as [|x l IH]; intros acc; simpl.
  - rewrite app_nil_r. reflexivity.
  - rewrite IH, <- app_assoc. reflexivity.
Qed.

(** ** Dicts *)

Lemma dict_get_cons k v d x :
  dict_get ((k, v) :: d) x = if String.eqb k x then Some v else dict_get d x.
Proof.
  unfold dict_get. simpl. destruct (String.eqb k x); reflexivity.
Qed.

Lemma dict_get_set_same k v d : dict_get (dict_set k v d) k = Some v.
Proof.
  induction d as [|[k' v'] d IH]; simpl.
  - rewrite dict_get_cons, String.eqb_refl. reflexivity.
  - destruct (String.eqb k' k) eqn:E; rewrite dict_get_cons.
    + rewrite String.eqb_refl. reflexivity.
    + rewrite E. exact IH.
Qed.

Lemma dict_get_set_other k v d x :
  k <> x -> dict_get (dict_set k v d) x = dict_get d x.
Proof.
  intros Hne. apply String.eqb_neq in Hne.
  induction d as [|[k' v'] d IH]; simpl.
  - rewrite dict_get_cons, Hne. reflexivity.
  - destruct (String.eqb k' k) eqn:E; rewrite !dict_get_cons.
    + apply String.eqb_eq in E. subst k'. rewrite Hne. reflexivity.
    + rewrite IH. reflexivity.
Qed.

Lemma dict_get_set k v d x :
  dict_get (dict_set k v d) x = if String.eqb k x then Some v else dict_get d x.
Proof.
  destruct (String.eqb k x) eqn:E.
  - apply String.eqb_eq in E. subst x. apply dict_get_set_same.
  - apply String.eqb_neq in E. apply dict_get_set_other. exact E.
Qed.

Lemma dict_get_app a b x :
  dict_get (a ++ b)%list x
  = match dict_get a x with Some v => Some v | None => dict_get b x end.
Proof.
  induction a as [|[k v] a IH]; simpl.
  - reflexivity.
  - rewrite !dict_get_cons. destruct (String.eqb k x); [reflexivity | exact IH].
Qed.

Lemma dict_update_app a b c :
  dict_update a (b ++ c)%list = dict_update (dict_update a b) c.
Proof. unfold dict_update. apply fold_left_app. Qed.

Lemma dict_update_one a k v : dict_update a [(k, v)] = dict_set k v a.
Proof. reflexivity. Qed.

(** After an update the last assignment to a key decides its value. *)
Lemma dict_get_update a b x :
  dict_get (dict_update a b) x
  = match dict_get (rev b) x with Some v => Some v | None => dict_get a x end.
Proof.
  induction b as [|[k v] b IH] using rev_ind.
  - reflexivity.
  - rewrite dict_update_app, dict_update_one, rev_unit, dict_get_cons, dict_get_set.
    destruct (String.eqb k x); [reflexivity | exact IH].
Qed.

Lemma dict_keys_set k v d :
  dict_keys (dict_set k v d) = set_add (dict_keys d) k.
Proof.
  unfold set_add, set_mem.
  induction d as [|[k' v'] d IH]; simpl.
  - reflexivity.
  - rewrite (String.eqb_sym k k'). destruct (String.eqb k' k) eqn:E; simpl.
    + apply String.eqb_eq in E. subst k'. reflexivity.
    + rewrite IH. destruct (existsb (String.eqb k) (dict_keys d)); reflexivity.
Qed.

Lemma no_object_value_set k v d :
  is_dict v = false -> no_object_value d -> no_object_value (dict_set k v d).
Proof.
  intros Hv Hd. induction Hd as [|[k' v'] d Hx Hd IH]; simpl.
  - constructor; [exact Hv | constructor].
  - destruct (String.eqb k' k).
    + constructor; [exact Hv | exact Hd].
    + constructor; [exact Hx | exact IH].
Qed.

Lemma no_object_value_update a b :
  no_object_value a -> no_object_value b -> no_object_value (dict_update a b).
Proof.
  intros Ha Hb. revert a Ha.
  induction Hb as [|[k v] b Hx Hb IH]; intros a Ha; simpl.
  - exact Ha.
  - apply IH. apply no_object_value_set; assumption.
Qed.

(** ** [_flatten_object] as a loop over the items *)

Lemma _flatten_object_loop self obj prefix :
  _flatten_object self obj prefix = fold_left (flatten_item self prefix) obj [].
Proof.
  unfold _flatten_object. simpl.
  generalize (@nil (string * json)) as flattened.
  induction obj as [|[key value] obj IH]; intros flattened.
  - reflexivity.
  - simpl. rewrite IH. f_equal.
    unfold flatten_item, _flatten_object. simpl. destruct value; reflexivity.
Qed.

Lemma index_items_writes new_key i value flattened :
  index_items new_key i value flattened
  = dict_update flattened (index_pairs new_key i value).
Proof.
  revert i flattened. induction value as [|item rest IH]; intros i flattened; simpl.
  - reflexivity.
  - rewrite IH. reflexivity.
Qed.

Lemma flatten_item_writes self prefix flattened item :
  flatten_item self prefix flattened item
  = dict_update flattened (item_writes self prefix item).
Proof.
  unfold flatten_item, item_writes, flatten_list.
  destruct item as [key value]; simpl.
  destruct value; try reflexivity.
  destruct (String.eqb (list_handling self) "join"); [reflexivity|].
  destruct (String.eqb (list_handling self) "index"); [|reflexivity].
  apply index_items_writes.
Qed.

Lemma flatten_items_writes self prefix items flattened :
  fold_left (flatten_item self prefix) items flattened
  = dict_update flattened (List.concat (map (item_writes self prefix) items)).
Proof.
  revert flattened. induction items as [|item items IH]; intros flattened; simpl.
  - reflexivity.
  - rewrite IH, dict_update_app, flatten_item_writes. reflexivity.
Qed.

(** What the loop leaves at a key: what its items assign to it, else what
    was there before. *)
Lemma flatten_items_get self prefix items flattened x :
  dict_get (fold_left (flatten_item self prefix) items flattened) x
  = match dict_get (_flatten_object self items prefix) x with
    | Some v => Some v
    | None => dict_get flattened x
    end.
Proof.
  rewrite _flatten_object_loop, !flatten_items_writes, !dict_get_update.
  destruct (dict_get (rev (List.concat (map (item_writes self prefix) items))) x); reflexivity.
Qed.

(** ** The records of [_json_to_records] *)

Lemma _json_to_records_map self json_data :
  _json_to_records self json_data = map (record_of self) json_data.
Proof.
  unfold _json_to_records.
  rewrite (fold_left_pointwise _
             (fun records item => (records ++ [record_of self item])%list)).
  - apply (append_loop (record_of self) json_data []).
  - intros records item. destruct item; reflexivity.
Qed.

Lemma _filter_fields_map records requested :
  _filter_fields records requested = map (filter_record requested) records.
Proof. unfold _filter_fields. apply (append_loop (filter_record requested) records []). Qed.

(** ** The Flattener's output *)

Lemma no_object_value_index new_key i value flattened :
  forallb (fun x => negb (is_dict x)) value = true ->
  no_object_value flattened ->
  no_object_value (index_items new_key i value flattened).
Proof.
  revert i flattened. induction value as [|item rest IH]; intros i flattened Hl Hf; simpl.
  - exact Hf.
  - simpl in Hl. apply andb_true_iff in Hl. destruct Hl as [Hitem Hrest].
    apply IH; [exact Hrest|]. apply no_object_value_set; [|exact Hf].
    destruct (is_dict item); [discriminate | reflexivity].
Qed.

Lemma no_object_value_list self new_key value flattened :
  (list_handling self = "index" -> forallb (fun x => negb (is_dict x)) value = true) ->
  no_object_value flattened ->
  no_object_value (flatten_list self new_key value flattened).
Proof.
  intros Hidx Hf. unfold flatten_list.
  destruct (String.eqb (list_handling self) "join").
  - apply no_object_value_set; [reflexivity | exact Hf].
  - destruct (String.eqb (list_handling self) "index") eqn:E.
    + apply String.eqb_eq in E. apply no_object_value_index; auto.
    + apply no_object_value_set; [reflexivity | exact Hf].
Qed.

Lemma flatten_value_no_object self v :
  forall prefix,
    (list_handling self = "index" -> no_object_in_lists v = true) ->
    no_object_value (flatten_value self v prefix).
Proof.
  induction v as [| | | | | l _ | d IH] using json_nested_ind; intros prefix Hidx;
    try (constructor; fail).
  change (no_object_value (_flatten_object self d prefix)).
  rewrite _flatten_object_loop.
  assert (Hacc : no_object_value []) by constructor.
  revert Hacc. generalize (@nil (string * json)) as flattened.
  induction IH as [|[key value] d Hvalue _ IHd]; intros flattened Hacc; simpl.
  - exact Hacc.
  - assert (Hhead : list_handling self = "index" -> no_object_in_lists value = true).
    { intros E. specialize (Hidx E). simpl in Hidx.
      apply andb_true_iff in Hidx. tauto. }
    assert (Htail : list_handling self = "index" -> no_object_in_lists (JDict d) = true).
    { intros E. specialize (Hidx E). simpl in Hidx.
      apply andb_true_iff in Hidx. tauto. }
    apply IHd; [exact Htail|].
    unfold flatten_item. simpl. simpl in Hvalue.
    destruct value; try (apply no_object_value_set; [reflexivity | exact Hacc]).
    + apply no_object_value_list; [exact Hhead | exact Hacc].
    + apply no_object_value_update; [exact Hacc|].
      apply (Hvalue (new_key_of prefix key) Hhead).
Qed.

(** C3, as the code has it. The flat record the Flattener produces holds
    no object as a value under every list-handling policy, provided that,
    when the policy is [index], no list of the record holds an object:
    under [index] the elements of a list are stored as they are. *)
Theorem flat_record_holds_no_object self obj prefix :
  (list_handling self = "index" -> no_object_in_lists (JDict obj) = true) ->
  no_object_value (_flatten_object self obj prefix).
Proof.
  intros Hidx. apply (flatten_value_no_object self (JDict obj) prefix Hidx).
Qed.

(** C3 at the record [{"tags": ["x", 7]}] under [index]. *)
Lemma flat_record_holds_no_object_witness :
  no_object_value
    (_flatten_object (with_list_handling default_converter "index")
       [("tags", JList [JStr "x"; JInt 7])] "").
Proof.
  apply (@flat_record_holds_no_object (with_list_handling default_converter "index")
           [("tags", JList [JStr "x"; JInt 7])] "").
  intros _. reflexivity.
Defined.

(** C3 as stated fails: under [index] the record [{"a": [{"b": 1}]}]
    flattens to a record whose value at [a.0] is the object [{"b": 1}]. *)
Lemma index_policy_keeps_object :
  let self := with_list_handling default_converter "index" in
  _flatten_object self [("a", JList [JDict [("b", JInt 1)]])] ""
  = [("a.0", JDict [("b", JInt 1)])]
  /\ ~ no_object_value (_flatten_object self [("a", JList [JDict [("b", JInt 1)]])] "").
Proof.
  split.
  - vm_compute. reflexivity.
  - intros H. vm_compute in H. inversion H as [|kv d Hhead Htail]. discriminate Hhead.
Qed.




(** ** The Parser *)

Lemma lstrip_spaces s :
  (forall c, In c (PyStr.chars s) -> PyStr.isspace c = true) -> PyStr.lstrip s = EmptyString.
Proof.
  induction s as [|c s IH]; intros Hall; simpl.
  - reflexivity.
  - rewrite (Hall c (or_introl eq_refl)). apply IH.
    intros c' Hin. apply Hall. right. exact Hin.
Qed.

Lemma strip_spaces s :
  (forall c, In c (PyStr.chars s) -> PyStr.isspace c = true) -> PyStr.strip s = EmptyString.
Proof.
  intros Hall. unfold PyStr.strip. rewrite (lstrip_spaces s Hall). reflexivity.
Qed.

Lemma _parse_json_scalar py input_text v :
  PyStr.strip input_text <> EmptyString ->
  json_loads py (PyStr.strip input_text) = Decoded v ->
  is_dict v = false -> is_list v = false ->
  _parse_json py input_text = Raise (ValueError "JSON must be an object or array").
Proof.
  intros Hne Hload Hd Hl. unfold _parse_json.
  destruct (PyStr.strip input_text) as [|c content]; [congruence|].
  rewrite Hload. destruct v; try reflexivity; discriminate.
Qed.

(** C5. An input whose whole text decodes to a value that is neither an
    object nor an array makes the conversion raise
    [ValueError("JSON must be an object or array")] with nothing written;
    the outcome is that of the whole-document branch, whatever the NDJSON
    reading of the text would give. *)
Theorem scalar_document_is_rejected py self input_text v out :
  PyStr.strip input_text <> EmptyString ->
  json_loads py (PyStr.strip input_text) = Decoded v ->
  is_dict v = false -> is_list v = false ->
  _parse_json py input_text = Raise (ValueError "JSON must be an object or array")
  /\ convert py self input_text out
     = (out, Raise (ValueError "JSON must be an object or array")).
Proof.
  intros Hne Hload Hd Hl.
  pose proof (_parse_json_scalar py input_text v Hne Hload Hd Hl) as Hparse.
  split; [exact Hparse|].
  unfold convert, bind, lift. rewrite Hparse. reflexivity.
Qed.

(** C5 at the document [5], which the NDJSON reading would report as
    line 1. *)
Lemma scalar_document_is_rejected_witness :
  convert sample_runtime default_converter "5" EmptyString
  = (EmptyString, Raise (ValueError "JSON must be an object or array"))
  /\ _parse_ndjson sample_runtime "5"
     = Raise (ValueError "Line 1: Expected JSON object").
Proof.
  split.
  - apply (@scalar_document_is_rejected sample_runtime default_converter
             "5" (JInt 5) EmptyString).
    + vm_compute. discriminate.
    + vm_compute. reflexivity.
    + reflexivity.
    + reflexivity.
  - vm_compute. reflexivity.
Defined.

(** C7. An input made of white space only, the empty input included,
    converts with success and leaves the output stream as it was: nothing
    is written. *)
Theorem blank_input_writes_nothing py self input_text out :
  (forall c, In c (PyStr.chars input_text) -> PyStr.isspace c = true) ->
  convert py self input_text out = (out, Ok tt).
Proof.
  intros Hall. unfold convert, bind, lift, _parse_json.
  rewrite (strip_spaces input_text Hall). simpl.
  destruct (fields self) as [[|f fs]|]; reflexivity.
Qed.

(** C7 at a blank, a tab and a line feed, and at the empty input. *)
Lemma blank_input_writes_nothing_witness :
  convert sample_runtime default_converter
    (String " " (String PyStr.tab (String PyStr.lf EmptyString))) EmptyString
  = (EmptyString, Ok tt)
  /\ convert sample_runtime default_converter EmptyString EmptyString
     = (EmptyString, Ok tt).
Proof.
  split.
  - apply (@blank_input_writes_nothing sample_runtime default_converter
             (String " " (String PyStr.tab (String PyStr.lf EmptyString))) EmptyString).
    intros c Hc. simpl in Hc.
    destruct Hc as [Hc|[Hc|[Hc|[]]]]; subst c; reflexivity.
  - apply (@blank_input_writes_nothing sample_runtime default_converter
             EmptyString EmptyString).
    intros c [].
Defined.

Lemma flatten_value_with_fields self requested v :
  forall prefix,
    flatten_value (with_fields self requested) v prefix = flatten_value self v prefix.
Proof.
  induction v as [| | | | | l _ | d IH] using json_nested_ind; intros prefix;
    try reflexivity.
  change (_flatten_object (with_fields self requested) d prefix
          = _flatten_object self d prefix).
  rewrite !_flatten_object_loop.
  generalize (@nil (string * json)) as flattened.
  induction IH as [|[key value] d Hvalue _ IHd]; intros flattened; simpl.
  - reflexivity.
  - rewrite IHd. f_equal. unfold flatten_item. simpl. simpl in Hvalue.
    destruct value; try reflexivity.
    f_equal. apply Hvalue.
Qed.

Lemma _json_to_records_with_fields self requested json_data :
  _json_to_records (with_fields self requested) json_data
  = _json_to_records self json_data.
Proof.
  rewrite !_json_to_records_map. apply map_ext. intros item.
  destruct item; try reflexivity.
  unfold record_of, _flatten_object. rewrite flatten_value_with_fields. reflexivity.
Qed.

(** C10. An empty field list is no field list: the projection is skipped
    and the conversion is the one without a field list, for every input;
    a projection onto no field would have emptied every record. *)
Theorem empty_field_list_is_no_field_list py self input_text out :
  convert py (with_fields self (Some [])) input_text out
  = convert py (with_fields self None) input_text out.
Proof.
  unfold convert, bind, lift.
  destruct (_parse_json py input_text) as [json_data|e]; [|reflexivity].
  simpl. rewrite !_json_to_records_with_fields. reflexivity.
Qed.

Lemma _filter_fields_on_no_field records :
  _filter_fields records [] = map (fun _ => []) records.
Proof. unfold _filter_fields. rewrite append_loop. reflexivity. Qed.

(** *** NDJSON *)

Lemma ndjson_lines_pass py before :
  Forall (passes py) before ->
  forall line_num rest records,
  exists records',
    ndjson_lines py line_num (before ++ rest)%list records
    = ndjson_lines py (line_num + List.length before) rest records'.
Proof.
  induction 1 as [|line before Hline _ IH]; intros line_num rest records; simpl.
  - exists records. rewrite Nat.add_0_r. reflexivity.
  - destruct Hline as [Hblank | [d Hobj]].
    + rewrite Hblank. destruct (IH (S line_num) rest records) as [records' E].
      exists records'. rewrite E. f_equal. lia.
    + destruct (PyStr.strip line) as [|c l] eqn:Hline.
      * destruct (IH (S line_num) rest records) as [records' E].
        exists records'. rewrite E. f_equal. lia.
      * rewrite Hobj. simpl.
        destruct (IH (S line_num) rest (records ++ [JDict d])%list) as [records' E].
        exists records'. rewrite E. f_equal. lia.
Qed.

(** The error of the NDJSON reading names the first line that does not
    pass, counted from 1 in the text [_parse_json] has trimmed. *)
Lemma _parse_ndjson_names_line py content before line after :
  PyStr.split PyStr.lf (PyStr.strip content) = (before ++ line :: after)%list ->
  Forall (passes py) before ->
  PyStr.strip line <> EmptyString ->
  let n := PyStr.of_nat (S (List.length before)) in
  (forall v, json_loads py (PyStr.strip line) = Decoded v -> is_dict v = false ->
     _parse_ndjson py content = Raise (ValueError ("Line " ++ n ++ ": Expected JSON object")))
  /\ (forall e, json_loads py (PyStr.strip line) = JSONDecodeError e ->
     _parse_ndjson py content = Raise (ValueError ("Line " ++ n ++ ": Invalid JSON - " ++ e))).
Proof.
  intros Hsplit Hbefore Hne n. unfold _parse_ndjson. rewrite Hsplit.
  destruct (ndjson_lines_pass py before Hbefore 1 (line :: after) []) as [records' E].
  rewrite E. subst n. simpl.
  destruct (PyStr.strip line) as [|c l] eqn:Hline; [congruence|].
  split.
  - intros v Hv Hd. rewrite Hv, Hd. reflexivity.
  - intros e He. rewrite He. reflexivity.
Qed.

(** C4 on an input that opens with an empty line. The offending text
    [[1]] is the third line of the input, and the error names line 2:
    the lines are counted in the trimmed text. *)
Theorem ndjson_line_number_after_blank_line :
  let input_text := LF ++ lit "{'a': 1}" ++ LF ++ "[1]" in
  nth_error (PyStr.split PyStr.lf input_text) 2 = Some "[1]"
  /\ convert sample_runtime default_converter input_text EmptyString
     = (EmptyString, Raise (ValueError "Line 2: Expected JSON object")).
Proof. vm_compute. split; reflexivity. Qed.

(** ** Sets and [sorted] *)

Lemma set_mem_In k s : set_mem k s = true <-> In k s.
Proof.
  unfold set_mem. rewrite existsb_exists. split.
  - intros [x [Hin E]]. apply String.eqb_eq in E. subst x. exact Hin.
  - intros Hin. exists k. split; [exact Hin | apply String.eqb_refl].
Qed.

Lemma set_add_In s k x : In x (set_add s k) <-> In x s \/ x = k.
Proof.
  unfold set_add. destruct (set_mem k s) eqn:E.
  - apply set_mem_In in E. split; [tauto|]. intros [H|H]; [exact H | subst x; exact E].
  - rewrite in_app_iff. simpl. split; intros [H|H]; auto.
    + destruct H as [H|[]]. auto.
Qed.

Lemma set_add_NoDup s k : NoDup s -> NoDup (set_add s k).
Proof.
  intros Hs. unfold set_add. destruct (set_mem k s) eqn:E; [exact Hs|].
  assert (Hnot : ~ In k s).
  { intros Hin. apply set_mem_In in Hin. congruence. }
  clear E. induction Hs as [|x s Hx Hs IH]; simpl.
  - constructor; [intros [] | constructor].
  - constructor.
    + rewrite in_app_iff. simpl. intros [H|[H|[]]]; [auto|].
      apply Hnot. left. symmetry. exact H.
    + apply IH. intros Hin. apply Hnot. right. exact Hin.
Qed.

Lemma set_update_In keys : forall s x, In x (set_update s keys) <-> In x s \/ In x keys.
Proof.
  unfold set_update. induction keys as [|k keys IH]; intros s x; simpl.
  - tauto.
  - rewrite IH, set_add_In. split; intros H; intuition (subst; auto).
Qed.

Lemma set_update_NoDup keys : forall s, NoDup s -> NoDup (set_update s keys).
Proof.
  unfold set_update. induction keys as [|k keys IH]; intros s Hs; simpl.
  - exact Hs.
  - apply IH. apply set_add_NoDup. exact Hs.
Qed.

(** Adding to a set what it already holds changes nothing. *)
Lemma set_update_known keys : forall s, incl keys s -> set_update s keys = s.
Proof.
  unfold set_update. induction keys as [|k keys IH]; intros s Hincl; simpl.
  - reflexivity.
  - assert (Hk : set_mem k s = true).
    { apply set_mem_In. apply Hincl. left. reflexivity. }
    unfold set_add at 2. rewrite Hk. apply IH.
    intros x Hx. apply Hincl. right. exact Hx.
Qed.

Lemma key_union_In records :
  forall s x,
    In x (fold_left (fun fieldnames record => set_update fieldnames (dict_keys record))
            records s)
    <-> In x s \/ exists record, In record records /\ In x (dict_keys record).
Proof.
  induction records as [|r records IH]; intros s x; simpl.
  - split; [auto | intros [H|[r [[] _]]]; exact H].
  - rewrite IH, set_update_In. split.
    + intros [[H|H]|[r' [Hr' Hx]]]; eauto.
    + intros [H|[r' [[E|Hr'] Hx]]]; subst; eauto.
Qed.

Lemma key_union_NoDup records :
  forall s, NoDup s ->
    NoDup (fold_left (fun fieldnames record => set_update fieldnames (dict_keys record))
             records s).
Proof.
  induction records as [|r records IH]; intros s Hs; simpl.
  - exact Hs.
  - apply IH. apply set_update_NoDup. exact Hs.
Qed.

Lemma leb_false_lt k x : String.leb k x = false -> str_lt x k.
Proof.
  unfold String.leb. intros H.
  destruct (String.compare k x) eqn:E; try discriminate.
  apply String_as_OT.cmp_lt. unfold String_as_OT.cmp.
  rewrite String.compare_antisym, E. reflexivity.
Qed.

Lemma leb_true_lt k x : String.leb k x = true -> k <> x -> str_lt k x.
Proof.
  unfold String.leb. intros H Hne.
  destruct (String.compare k x) eqn:E; try discriminate.
  - apply String.compare_eq_iff in E. contradiction.
  - apply String_as_OT.cmp_lt. exact E.
Qed.

Lemma insert_sorted_In k l x : In x (insert_sorted k l) <-> x = k \/ In x l.
Proof.
  induction l as [|y l IH]; simpl.
  - split; intros [H|H]; auto.
  - destruct (String.leb k y); simpl.
    + split; intros [H|H]; auto.
    + rewrite IH. split; intros H; intuition auto.
Qed.

Lemma sorted_In l x : In x (sorted l) <-> In x l.
Proof.
  induction l as [|k l IH]; simpl.
  - tauto.
  - rewrite insert_sorted_In, IH. split; intros [H|H]; auto.
Qed.

Lemma insert_sorted_increasing k l :
  ~ In k l -> StronglySorted str_lt l -> StronglySorted str_lt (insert_sorted k l).
Proof.
  intros Hnot Hl. induction Hl as [|y l Hl IH Hy]; simpl.
  - constructor; constructor.
  - destruct (String.leb k y) eqn:E.
    + assert (Hky : str_lt k y).
      { apply leb_true_lt; [exact E|]. intros ->. apply Hnot. left. reflexivity. }
      constructor; [constructor; assumption|].
      constructor; [exact Hky|].
      rewrite Forall_forall in *. intros z Hz.
      apply String_as_OT.lt_trans with y; [exact Hky | apply Hy; exact Hz].
    + constructor.
      * apply IH. intros Hin. apply Hnot. right. exact Hin.
      * rewrite Forall_forall in *. intros z Hz.
        apply insert_sorted_In in Hz. destruct Hz as [->|Hz].
        -- apply leb_false_lt. exact E.
        -- apply Hy. exact Hz.
Qed.

Lemma sorted_increasing l : NoDup l -> StronglySorted str_lt (sorted l).
Proof.
  induction 1 as [|k l Hk Hl IH]; simpl.
  - constructor.
  - apply insert_sorted_increasing; [|exact IH].
    rewrite sorted_In. exact Hk.
Qed.

Lemma str_lt_irrefl x : ~ str_lt x x.
Proof. intros H. apply (@String_as_OT.lt_not_eq x x H). reflexivity. Qed.

(** Two increasing lists of the same strings are the same list. *)
Lemma increasing_unique l1 :
  forall l2,
    StronglySorted str_lt l1 -> StronglySorted str_lt l2 ->
    (forall x, In x l1 <-> In x l2) -> l1 = l2.
Proof.
  induction l1 as [|a l1 IH]; intros l2 H1 H2 Hsame.
  - destruct l2 as [|b l2]; [reflexivity|].
    exfalso. apply (proj2 (Hsame b)). left. reflexivity.
  - destruct l2 as [|b l2].
    { exfalso. apply (proj1 (Hsame a)). left. reflexivity. }
    inversion H1 as [|? ? H1' Ha]; subst. inversion H2 as [|? ? H2' Hb]; subst.
    rewrite Forall_forall in Ha, Hb.
    assert (Hab : a = b).
    { destruct (proj1 (Hsame a) (or_introl eq_refl)) as [E|Hin]; [auto|].
      destruct (proj2 (Hsame b) (or_introl eq_refl)) as [E|Hin']; [auto|].
      exfalso. apply (str_lt_irrefl a).
      apply String_as_OT.lt_trans with b; [apply Ha; exact Hin' | apply Hb; exact Hin]. }
    subst b. f_equal. apply IH; [exact H1' | exact H2'|].
    intros x. split; intros Hx.
    + destruct (proj1 (Hsame x) (or_intror Hx)) as [E|Hin]; [|exact Hin].
      subst x. exfalso. apply (str_lt_irrefl a). apply Ha. exact Hx.
    + destruct (proj2 (Hsame x) (or_intror Hx)) as [E|Hin]; [|exact Hin].
      subst x. exfalso. apply (str_lt_irrefl a). apply Hb. exact Hx.
Qed.

Lemma sorted_of_same_set l1 l2 :
  NoDup l1 -> NoDup l2 -> (forall x, In x l1 <-> In x l2) -> sorted l1 = sorted l2.
Proof.
  intros H1 H2 Hsame. apply increasing_unique.
  - apply sorted_increasing. exact H1.
  - apply sorted_increasing. exact H2.
  - intros x. rewrite !sorted_In. apply Hsame.
Qed.

Lemma csv_fieldnames_In records x :
  In x (csv_fieldnames records)
  <-> exists record, In record records /\ In x (dict_keys record).
Proof.
  unfold csv_fieldnames. rewrite sorted_In, key_union_In. simpl. tauto.
Qed.

Lemma csv_fieldnames_increasing records :
  StronglySorted str_lt (csv_fieldnames records).
Proof.
  unfold csv_fieldnames. apply sorted_increasing, key_union_NoDup. constructor.
Qed.

(** ** The csv writer *)

Lemma str_app_assoc (a b c : string) : (a ++ b) ++ c = a ++ (b ++ c).
Proof. induction a as [|x a IH]; simpl; [reflexivity | rewrite IH; reflexivity]. Qed.

Lemma str_app_empty (a : string) : a ++ EmptyString = a.
Proof. induction a as [|x a IH]; simpl; [reflexivity | rewrite IH; reflexivity]. Qed.

Lemma str_app_is_empty (a b : string) : a ++ b = EmptyString -> a = EmptyString.
Proof. destruct a; simpl; [reflexivity | discriminate]. Qed.

Lemma double_quotes_without_quote text :
  PyStr.contains PyStr.dquote text = false -> double_quotes text = text.
Proof.
  unfold PyStr.contains. induction text as [|c text IH]; simpl; intros H.
  - reflexivity.
  - apply orb_false_iff in H. destruct H as [Hc Htext].
    rewrite Hc, (IH Htext). reflexivity.
Qed.

(** The characters the writer looks for are the delimiter, the double
    quote and the line breaks. *)
Lemma csv_special_chars py d c :
  csv_special py d c
  = Ascii.eqb c d || Ascii.eqb c PyStr.dquote || Ascii.eqb c PyStr.lf
    || (csv_quotes_cr py && Ascii.eqb c PyStr.cr).
Proof.
  unfold csv_special, quotechar, lineterminator, PyStr.contains.
  cbn [PyStr.chars list_ascii_of_string existsb].
  rewrite orb_false_r, (Ascii.eqb_sym PyStr.lf c). reflexivity.
Qed.

Lemma special_scan py d text :
  existsb (csv_special py d) (PyStr.chars text)
  = PyStr.contains d text || PyStr.contains PyStr.dquote text
    || PyStr.contains PyStr.lf text
    || (csv_quotes_cr py && PyStr.contains PyStr.cr text).
Proof.
  unfold PyStr.contains. induction text as [|c text IH].
  - cbn. destruct (csv_quotes_cr py); reflexivity.
  - change (PyStr.chars (String c text)) with (c :: PyStr.chars text).
    cbn [existsb]. rewrite IH, csv_special_chars.
    destruct (Ascii.eqb c d), (Ascii.eqb c PyStr.dquote), (Ascii.eqb c PyStr.lf),
      (Ascii.eqb c PyStr.cr), (csv_quotes_cr py),
      (existsb (fun x => Ascii.eqb x d) (PyStr.chars text)),
      (existsb (fun x => Ascii.eqb x PyStr.dquote) (PyStr.chars text)),
      (existsb (fun x => Ascii.eqb x PyStr.lf) (PyStr.chars text)),
      (existsb (fun x => Ascii.eqb x PyStr.cr) (PyStr.chars text)); reflexivity.
Qed.

Lemma join_append_data_scan py d text :
  forall quoted,
    join_append_data py d text quoted
    = (double_quotes text, quoted || existsb (csv_special py d) (PyStr.chars text)).
Proof.
  induction text as [|c text IH]; intros quoted; simpl.
  - rewrite orb_false_r. reflexivity.
  - destruct (csv_special py d c) eqn:Hc.
    + rewrite IH. simpl. rewrite orb_true_r.
      unfold quotechar. destruct (Ascii.eqb c PyStr.dquote) eqn:Hq.
      * apply Ascii.eqb_eq in Hq. subst c. reflexivity.
      * reflexivity.
    + rewrite IH. simpl.
      assert (Hq : Ascii.eqb c PyStr.dquote = false).
      { unfold csv_special, quotechar in Hc.
        destruct (Ascii.eqb c PyStr.dquote); [|reflexivity].
        rewrite orb_true_r in Hc. discriminate Hc. }
      rewrite Hq. reflexivity.
Qed.

Lemma join_append_cell py d rec num_fields text :
  join_append py d rec num_fields text false
  = match num_fields with
    | O => rec
    | S _ => rec ++ String d EmptyString
    end ++ csv_cell py d text.
Proof.
  unfold join_append, csv_cell. rewrite join_append_data_scan. simpl.
  destruct (existsb (csv_special py d) (PyStr.chars text)) eqn:E.
  - reflexivity.
  - rewrite double_quotes_without_quote; [reflexivity|].
    rewrite special_scan in E.
    destruct (PyStr.contains PyStr.dquote text); [|reflexivity].
    rewrite orb_true_r in E. discriminate E.
Qed.

Lemma csv_cell_empty py d text : csv_cell py d text = EmptyString -> text = EmptyString.
Proof.
  unfold csv_cell. destruct (existsb (csv_special py d) (PyStr.chars text)).
  - discriminate.
  - auto.
Qed.

(** The fields after the first, each behind a delimiter. *)
Lemma writer_fields_after py d row :
  forall rec n,
    fold_left
      (fun st field =>
         (join_append py d (fst st) (snd st) (csv_field field) false, S (snd st)))
      row (rec, S n)
    = (rec ++ written (map (fun v => String d (csv_cell py d (csv_field v))) row),
       S n + List.length row).
Proof.
  induction row as [|v row IH]; intros rec n; simpl.
  - rewrite str_app_empty, Nat.add_0_r. reflexivity.
  - rewrite join_append_cell, IH. rewrite !str_app_assoc. simpl.
    f_equal. lia.
Qed.

Lemma join_after sep x xs :
  PyStr.join sep (x :: xs) = x ++ written (map (fun y => sep ++ y) xs).
Proof.
  revert x. induction xs as [|y xs IH]; intros x.
  - simpl. rewrite str_app_empty. reflexivity.
  - change (PyStr.join sep (x :: y :: xs)) with (x ++ sep ++ PyStr.join sep (y :: xs)).
    rewrite IH. simpl. rewrite str_app_assoc. reflexivity.
Qed.

Lemma spec_cell_csv_cell py d n text :
  (n <> 1 \/ text <> EmptyString) -> spec_cell py d n text = csv_cell py d text.
Proof.
  intros H. unfold spec_cell, spec_quoted, csv_cell. rewrite special_scan.
  assert (E : ((n =? 1)%nat && (text =? EmptyString)) = false).
  { destruct H as [H|H].
    - apply Nat.eqb_neq in H. rewrite H. reflexivity.
    - apply String.eqb_neq in H. rewrite H. apply andb_false_r. }
  rewrite E, orb_false_r. reflexivity.
Qed.

(** The writer's record is the row under minimal quoting, a lone empty
    cell quoted, a line feed at the end. *)
Lemma writer_record_spec py d row : writer_record py d row = spec_row py d row.
Proof.
  unfold writer_record, spec_row.
  destruct row as [|v row].
  - reflexivity.
  - simpl fold_left. rewrite join_append_cell. simpl (EmptyString ++ _).
    rewrite writer_fields_after.
    change (lineterminator) with (String PyStr.lf EmptyString).
    destruct row as [|w row].
    + simpl. rewrite str_app_empty.
      destruct (csv_cell py d (csv_field v)) eqn:Ecell.
      * apply csv_cell_empty in Ecell. rewrite Ecell.
        unfold spec_cell, spec_quoted, join_append. cbn.
        destruct (csv_quotes_cr py); reflexivity.
      * rewrite <- Ecell. rewrite spec_cell_csv_cell; [reflexivity|].
        right. intros E. rewrite E in Ecell. unfold csv_cell in Ecell.
        simpl in Ecell. discriminate Ecell.
    + rewrite (map_cons _ v (w :: row)), join_after.
      assert (Hlen : List.length (v :: w :: row) <> 1) by (simpl; lia).
      set (n := List.length (v :: w :: row)) in *.
      rewrite (@spec_cell_csv_cell py d n (csv_field v) (or_introl Hlen)).
      assert (Hrest :
        written (map (fun v0 => String d (csv_cell py d (csv_field v0))) (w :: row))
        = written (map (fun y => String d EmptyString ++ y)
                     (map (fun v0 => spec_cell py d n (csv_field v0)) (w :: row)))).
      { rewrite map_map. f_equal. apply map_ext. intros v0.
        rewrite (@spec_cell_csv_cell py d n (csv_field v0) (or_introl Hlen)). reflexivity. }
      rewrite <- Hrest.
      destruct (csv_cell py d (csv_field v)
                ++ written (map (fun v0 => String d (csv_cell py d (csv_field v0)))
                              (w :: row))) eqn:Erec.
      * apply str_app_is_empty in Erec as Hfirst. rewrite Hfirst in Erec.
        simpl in Erec. discriminate Erec.
      * simpl. reflexivity.
Qed.

(** ** [_write_csv] *)

Lemma for_each_writes {A : Type} (body : A -> io unit) (text : A -> string) l :
  (forall x, In x l -> forall out, body x out = (out ++ text x, Ok tt)) ->
  forall out, for_each l body out = (out ++ written (map text l), Ok tt).
Proof.
  induction l as [|x l IH]; intros Hbody out; simpl.
  - rewrite str_app_empty. reflexivity.
  - unfold bind. rewrite (Hbody x (or_introl eq_refl)).
    rewrite IH.
    + rewrite str_app_assoc. reflexivity.
    + intros y Hy. apply Hbody. right. exact Hy.
Qed.

Lemma _dict_to_list_known fieldnames rowdict :
  incl (dict_keys rowdict) fieldnames ->
  _dict_to_list fieldnames rowdict
  = Ok (map (fun key => dict_get_default rowdict key (JStr EmptyString)) fieldnames).
Proof.
  intros Hincl. unfold _dict_to_list.
  assert (E : filter (fun k => negb (set_mem k fieldnames)) (dict_keys rowdict) = []).
  { induction (dict_keys rowdict) as [|k keys IH]; simpl.
    - reflexivity.
    - assert (Hk : set_mem k fieldnames = true).
      { apply set_mem_In. apply Hincl. left. reflexivity. }
      rewrite Hk. simpl. apply IH. intros x Hx. apply Hincl. right. exact Hx. }
  rewrite E. reflexivity.
Qed.

Lemma DictWriter_writerow_known py d fieldnames rowdict out :
  incl (dict_keys rowdict) fieldnames ->
  DictWriter_writerow py d fieldnames rowdict out
  = (out ++ writer_record py d
              (map (fun key => dict_get_default rowdict key (JStr EmptyString)) fieldnames),
     Ok tt).
Proof.
  intros Hincl. unfold DictWriter_writerow, bind, lift.
  rewrite (_dict_to_list_known fieldnames rowdict Hincl). reflexivity.
Qed.

Lemma header_dict_keys fieldnames :
  forall header,
    dict_keys (fold_left (fun header k => dict_set k (JStr k) header) fieldnames header)
    = set_update (dict_keys header) fieldnames.
Proof.
  induction fieldnames as [|k fieldnames IH]; intros header; simpl.
  - reflexivity.
  - rewrite IH, dict_keys_set. reflexivity.
Qed.

Lemma header_dict_get fieldnames key :
  forall header,
    In key fieldnames \/ dict_get header key = Some (JStr key) ->
    dict_get (fold_left (fun header k => dict_set k (JStr k) header) fieldnames header) key
    = Some (JStr key).
Proof.
  induction fieldnames as [|k fieldnames IH]; intros header H; simpl.
  - destruct H as [[]|H]. exact H.
  - apply IH. rewrite dict_get_set.
    destruct (String.eqb k key) eqn:E.
    + apply String.eqb_eq in E. subst k. right. reflexivity.
    + apply String.eqb_neq in E. destruct H as [[H|H]|H]; [contradiction | auto | auto].
Qed.

Lemma DictWriter_writeheader_text py d fieldnames out :
  DictWriter_writeheader py d fieldnames out
  = (out ++ writer_record py d (map JStr fieldnames), Ok tt).
Proof.
  unfold DictWriter_writeheader. rewrite DictWriter_writerow_known.
  - do 3 f_equal. apply map_ext_in. intros key Hkey.
    unfold dict_get_default, header_dict.
    rewrite (header_dict_get fieldnames key [] (or_introl Hkey)). reflexivity.
  - unfold header_dict. rewrite header_dict_keys. intros x Hx.
    apply set_update_In in Hx. destruct Hx as [[]|Hx]. exact Hx.
Qed.

(** What [_write_csv] writes for records that are not none: the
    writer's record of each row of [csv_rows], in order. *)
Lemma _write_csv_rows py self records d out :
  records <> [] ->
  csv_dialect py (delimiter self) = Ok d ->
  _write_csv py self records out
  = (out ++ written (map (writer_record py d)
                       (csv_rows self (csv_fieldnames records) records)),
     Ok tt).
Proof.
  intros Hne Hd. unfold _write_csv.
  destruct records as [|r0 records0]; [congruence|].
  set (records := r0 :: records0) in *.
  unfold bind at 1. unfold lift. rewrite Hd.
  assert (Hrows : forall out',
    for_each records (DictWriter_writerow py d (csv_fieldnames records)) out'
    = (out' ++ written
         (map (fun record =>
                 writer_record py d
                   (map (fun key => dict_get_default record key (JStr EmptyString))
                      (csv_fieldnames records))) records), Ok tt)).
  { apply for_each_writes. intros r Hr out'.
    apply DictWriter_writerow_known. intros x Hx.
    apply csv_fieldnames_In. exists r. split; assumption. }
  unfold csv_rows, bind. destruct (no_header self).
  - unfold ret. rewrite Hrows. simpl. rewrite map_map. reflexivity.
  - rewrite DictWriter_writeheader_text, Hrows. simpl.
    rewrite str_app_assoc, map_map. reflexivity.
Qed.

Lemma csv_dialect_char py delimiter d :
  csv_dialect py delimiter = Ok d -> delimiter = String d EmptyString.
Proof.
  unfold csv_dialect. destruct delimiter as [|c [|c' rest]]; try discriminate.
  destruct (csv_check_delimiter py c); [discriminate|].
  intros E. injection E as E. subst c. reflexivity.
Qed.

(** C9, as the code has it. With [d] the one character of the configured
    delimiter, every row [_write_csv] emits, header or data, is its cells
    joined by [d] and ended by one line feed; a cell is put between double
    quotes, its double quotes doubled, when and only when its text holds
    the delimiter, a double quote or a line break, or when the cell is
    empty and alone in its row; any other cell is written as it is. *)
Theorem rows_are_minimally_quoted py self records d out :
  records <> [] ->
  csv_dialect py (delimiter self) = Ok d ->
  delimiter self = String d EmptyString
  /\ _write_csv py self records out
     = (out ++ written (map (spec_row py d)
                          (csv_rows self (csv_fieldnames records) records)),
        Ok tt).
Proof.
  intros Hne Hd. split; [apply (csv_dialect_char py _ d Hd)|].
  rewrite (_write_csv_rows py self records d out Hne Hd).
  do 3 f_equal. apply map_ext. intros row. apply writer_record_spec.
Qed.

(** C9 on two records whose cells hold a comma, a double quote and a
    line feed. *)
Lemma rows_are_minimally_quoted_witness :
  _write_csv sample_runtime default_converter
    [[("a", JStr "x,y"); ("b", JStr (lit "say 'hi'"))]; [("a", JStr ("1" ++ LF ++ "2"))]]
    EmptyString
  = ("a,b" ++ LF
     ++ lit "'x,y','say ''hi'''" ++ LF
     ++ lit "'1" ++ LF ++ lit "2'," ++ LF, Ok tt).
Proof.
  destruct (rows_are_minimally_quoted sample_runtime default_converter
              [[("a", JStr "x,y"); ("b", JStr (lit "say 'hi'"))];
               [("a", JStr ("1" ++ LF ++ "2"))]]
              ","%char EmptyString) as [_ Hout].
  - discriminate.
  - reflexivity.
  - rewrite Hout. vm_compute. reflexivity.
Defined.

(** C9 as stated fails: the record [{"a": ""}] gives a data row of one
    empty cell, which the writer puts between double quotes although it
    holds no delimiter, no double quote and no line break. *)
Lemma lone_empty_cell_is_quoted :
  convert sample_runtime default_converter (lit "{'a': ''}") EmptyString
  = ("a" ++ LF ++ lit "''" ++ LF, Ok tt)
  /\ written (map (claimed_row sample_runtime ","%char)
                (csv_rows default_converter ["a"] [[("a", JStr EmptyString)]]))
     = "a" ++ LF ++ LF
  /\ "a" ++ LF ++ lit "''" ++ LF <> "a" ++ LF ++ LF.
Proof.
  split; [|split].
  - vm_compute. reflexivity.
  - vm_compute. reflexivity.
  - vm_compute. discriminate.
Qed.

(** ** The Projector and the columns *)

Lemma filter_record_keys requested record :
  dict_keys (filter_record requested record) = set_update [] requested.
Proof.
  unfold filter_record.
  change (@nil string) with (dict_keys []).
  generalize (@nil (string * json)) as filtered_record.
  induction requested as [|field requested IH]; intros filtered_record; simpl.
  - reflexivity.
  - rewrite IH. destruct (dict_get record field); rewrite dict_keys_set; reflexivity.
Qed.

Lemma filter_record_get requested record key :
  In key requested ->
  dict_get (filter_record requested record) key
  = Some (match dict_get record key with Some v => v | None => JNull end).
Proof.
  unfold filter_record. intros Hin.
  assert (H : forall filtered_record,
    In key requested
    \/ dict_get filtered_record key
       = Some (match dict_get record key with Some v => v | None => JNull end) ->
    dict_get
      (fold_left
         (fun filtered_record field =>
            match dict_get record field with
            | Some v => dict_set field v filtered_record
            | None => dict_set field JNull filtered_record
            end) requested filtered_record) key
    = Some (match dict_get record key with Some v => v | None => JNull end)).
  { clear Hin. induction requested as [|field requested IH]; intros filtered_record H; simpl.
    - destruct H as [[]|H]. exact H.
    - apply IH. destruct (String.eqb field key) eqn:E.
      + apply String.eqb_eq in E. subst field. right.
        destruct (dict_get record key); apply dict_get_set_same.
      + apply String.eqb_neq in E. destruct H as [[H|H]|H]; [contradiction | auto |].
        right. destruct (dict_get record field);
          rewrite dict_get_set_other; assumption. }
  apply H. left. exact Hin.
Qed.

(** The columns of projected records: the requested names, each once,
    sorted. *)
Lemma projected_fieldnames requested records :
  records <> [] ->
  csv_fieldnames (map (filter_record requested) records)
  = sorted (set_update [] requested).
Proof.
  intros Hne. apply increasing_unique.
  - apply csv_fieldnames_increasing.
  - apply sorted_increasing, set_update_NoDup. constructor.
  - intros x. rewrite csv_fieldnames_In, sorted_In. split.
    + intros [r [Hr Hx]]. apply in_map_iff in Hr. destruct Hr as [r0 [E _]]. subst r.
      rewrite filter_record_keys in Hx. exact Hx.
    + intros Hx. destruct records as [|r0 records]; [congruence|].
      exists (filter_record requested r0). split.
      * left. reflexivity.
      * rewrite filter_record_keys. exact Hx.
Qed.

(** C1, as the code has it. With a field list configured and at least
    one record, the header and the cells of every data row follow the
    requested names sorted by code point, each name once, whatever the
    order and the repetitions of the list; a requested name a record lacks
    gives an empty cell, a name not requested gives no column. *)
Theorem projected_columns_are_sorted py self input_text requested json_data d out :
  fields self = Some requested -> requested <> [] ->
  _parse_json py input_text = Ok json_data -> json_data <> [] ->
  csv_dialect py (delimiter self) = Ok d ->
  let columns := sorted (set_update [] requested) in
  let row_of record :=
    map (fun key => match dict_get record key with Some v => v | None => JNull end)
      columns in
  convert py self input_text out
  = (out ++ written
       (map (writer_record py d)
          ((if no_header self then [] else [map JStr columns])
           ++ map row_of (_json_to_records self json_data))%list),
     Ok tt)
  /\ StronglySorted str_lt columns
  /\ (forall key, In key columns <-> In key requested).
Proof.
  intros Hfields Hreq Hparse Hdata Hd columns row_of.
  assert (Hin : forall key, In key columns <-> In key requested).
  { intros key. unfold columns. rewrite sorted_In, set_update_In. simpl. tauto. }
  split; [|split].
  - unfold convert, bind at 1. unfold lift. rewrite Hparse, Hfields.
    destruct requested as [|f fs]; [congruence|].
    rewrite _filter_fields_map.
    assert (Hrecords : _json_to_records self json_data <> []).
    { rewrite _json_to_records_map. destruct json_data; [congruence | discriminate]. }
    rewrite _write_csv_rows with (d := d); [|
      destruct (_json_to_records self json_data); [congruence | discriminate] | exact Hd].
    rewrite (projected_fieldnames (f :: fs) _ Hrecords).
    fold columns. unfold csv_rows. rewrite map_map.
    do 5 f_equal. apply map_ext. intros record.
    apply map_ext_in. intros key Hkey. apply Hin in Hkey.
    unfold dict_get_default. rewrite (filter_record_get (f :: fs) record key Hkey).
    reflexivity.
  - apply sorted_increasing, set_update_NoDup. constructor.
  - exact Hin.
Qed.

(** C1 at the field list [z, a, a] on [{"a": 1, "b": 2}]: columns [a, z]. *)
Lemma projected_columns_are_sorted_witness :
  convert sample_runtime (with_fields default_converter (Some ["z"; "a"; "a"]))
    (lit "[{'a': 1, 'b': 2}]") EmptyString
  = ("a,z" ++ LF ++ "1," ++ LF, Ok tt).
Proof.
  destruct (projected_columns_are_sorted sample_runtime
              (with_fields default_converter (Some ["z"; "a"; "a"]))
              (lit "[{'a': 1, 'b': 2}]") ["z"; "a"; "a"]
              [JDict [("a", JInt 1); ("b", JInt 2)]] ","%char EmptyString
              eq_refl) as [Hout _].
  - discriminate.
  - vm_compute. reflexivity.
  - discriminate.
  - reflexivity.
  - rewrite Hout. vm_compute. reflexivity.
Defined.

(** C1 as stated fails: with the field list [b, a] the header is [a,b]
    and the row [1,2], not [b,a] and [2,1]; with [a, a] there is one
    column [a], not two. *)
Lemma requested_order_is_not_kept :
  convert sample_runtime (with_fields default_converter (Some ["b"; "a"]))
    (lit "[{'a': 1, 'b': 2}]") EmptyString
  = ("a,b" ++ LF ++ "1,2" ++ LF, Ok tt)
  /\ "a,b" ++ LF ++ "1,2" ++ LF <> "b,a" ++ LF ++ "2,1" ++ LF
  /\ convert sample_runtime (with_fields default_converter (Some ["a"; "a"]))
       (lit "[{'a': 1, 'b': 2}]") EmptyString
     = ("a" ++ LF ++ "1" ++ LF, Ok tt).
Proof.
  split; [|split].
  - vm_compute. reflexivity.
  - vm_compute. discriminate.
  - vm_compute. reflexivity.
Qed.

(** *** The keys of a flat record do not depend on the order of the
    members *)

Lemma dict_update_keys_In a b k :
  In k (dict_keys (dict_update a b)) <-> In k (dict_keys a) \/ In k (dict_keys b).
Proof.
  revert a. induction b as [|[k' v] b IH]; intros a; simpl.
  - tauto.
  - change (dict_update a ((k', v) :: b)) with (dict_update (dict_set k' v a) b).
    rewrite IH, dict_keys_set, set_add_In. split; intros H; intuition (subst; auto).
Qed.

Lemma flat_keys self obj prefix k :
  In k (dict_keys (_flatten_object self obj prefix))
  <-> exists item, In item obj /\ In k (dict_keys (item_writes self prefix item)).
Proof.
  rewrite _flatten_object_loop, flatten_items_writes, dict_update_keys_In.
  unfold dict_keys at 2.
  rewrite concat_map, in_concat. simpl. split.
  - intros [[]|[keys [Hkeys Hk]]].
    apply in_map_iff in Hkeys. destruct Hkeys as [ws [E Hws]]. subst keys.
    apply in_map_iff in Hws. destruct Hws as [item [E Hitem]]. subst ws.
    exists item. split; assumption.
  - intros [item [Hitem Hk]]. right.
    exists (map fst (item_writes self prefix item)). split; [|exact Hk].
    apply in_map. apply in_map. exact Hitem.
Qed.

Lemma reordered_not_dict v w : reordered v w -> is_dict v = false -> w = v.
Proof. intros H Hv. inversion H; subst; [reflexivity | discriminate Hv]. Qed.

Lemma reordered_flat_keys self v :
  forall w prefix k,
    reordered v w ->
    (In k (dict_keys (flatten_value self v prefix))
     <-> In k (dict_keys (flatten_value self w prefix))).
Proof.
  induction v as [| | | | | l _ | d IH] using json_nested_ind; intros w prefix k H;
    try (rewrite (reordered_not_dict _ w H eq_refl); tauto).
  inversion H as [|d0 d' d'' Hpairs Hperm]; subst; [tauto|].
  change (In k (dict_keys (_flatten_object self d prefix))
          <-> In k (dict_keys (_flatten_object self d'' prefix))).
  rewrite !flat_keys.
  assert (Hd' :
    (exists item, In item d /\ In k (dict_keys (item_writes self prefix item)))
    <-> (exists item, In item d' /\ In k (dict_keys (item_writes self prefix item)))).
  { clear H Hperm. induction Hpairs as [|[key value] [key' value'] d d' [Hkey Hvalue] _ IHd].
    - split; intros [item [[] _]].
    - simpl in Hkey. subst key'. simpl in Hvalue.
      inversion IH as [|? ? IHvalue IHrest]; subst. simpl in IHvalue.
      specialize (IHd IHrest).
      assert (Hitem :
        In k (dict_keys (item_writes self prefix (key, value)))
        <-> In k (dict_keys (item_writes self prefix (key, value')))).
      { destruct (is_dict value) eqn:Edict.
        - destruct value; try discriminate Edict.
          inversion Hvalue; subst; [tauto|].
          apply (IHvalue _ (new_key_of prefix key) k Hvalue).
        - rewrite (reordered_not_dict _ _ Hvalue Edict). tauto. }
      split; intros [item [[E|Hin] Hk]]; subst.
      + exists (key, value'). split; [left; reflexivity | apply Hitem; exact Hk].
      + destruct (proj1 IHd (ex_intro _ item (conj Hin Hk))) as [item' [Hin' Hk']].
        exists item'. split; [right; exact Hin' | exact Hk'].
      + exists (key, value). split; [left; reflexivity | apply Hitem; exact Hk].
      + destruct (proj2 IHd (ex_intro _ item (conj Hin Hk))) as [item' [Hin' Hk']].
        exists item'. split; [right; exact Hin' | exact Hk']. }
  rewrite Hd'. split; intros [item [Hin Hk]]; exists item; split; try exact Hk.
  - apply (Permutation_in _ Hperm). exact Hin.
  - apply (Permutation_in _ (Permutation_sym Hperm)). exact Hin.
Qed.

Lemma reordered_record_keys self v w k :
  reordered v w ->
  (In k (dict_keys (record_of self v)) <-> In k (dict_keys (record_of self w))).
Proof.
  intros H. destruct (is_dict v) eqn:Edict.
  - destruct v; try discriminate Edict.
    inversion H; subst; [tauto|].
    apply (reordered_flat_keys self _ _ EmptyString k H).
  - rewrite (reordered_not_dict _ _ H Edict). tauto.
Qed.

Lemma reordered_records_keys self json_data data' k :
  Forall2 reordered json_data data' ->
  ((exists record, In record (_json_to_records self json_data) /\ In k (dict_keys record))
   <-> (exists record, In record (_json_to_records self data') /\ In k (dict_keys record))).
Proof.
  rewrite !_json_to_records_map.
  induction 1 as [|v w json_data data' Hvw _ IH]; simpl.
  - split; intros [record [[] _]].
  - pose proof (reordered_record_keys self v w k Hvw) as Hkeys.
    split; intros [record [[E|Hin] Hk]]; subst.
    + exists (record_of self w). split; [left; reflexivity | apply Hkeys; exact Hk].
    + destruct (proj1 IH (ex_intro _ record (conj Hin Hk))) as [record' [Hin' Hk']].
      exists record'. split; [right; exact Hin' | exact Hk'].
    + exists (record_of self v). split; [left; reflexivity | apply Hkeys; exact Hk].
    + destruct (proj2 IH (ex_intro _ record (conj Hin Hk))) as [record' [Hin' Hk']].
      exists record'. split; [right; exact Hin' | exact Hk'].
Qed.

(** C6. With no field list and at least one record, the header is the
    keys of all flat records, each once, in increasing order of code
    points, and the cells of every row follow it; the columns stay the
    same when the records of the input come in another order and the
    members of its objects come in another order. *)
Theorem unprojected_columns_are_sorted_union py self input_text json_data d out :
  fields self = None ->
  _parse_json py input_text = Ok json_data -> json_data <> [] ->
  csv_dialect py (delimiter self) = Ok d ->
  let records := _json_to_records self json_data in
  let columns := csv_fieldnames records in
  convert py self input_text out
  = (out ++ written (map (writer_record py d) (csv_rows self columns records)), Ok tt)
  /\ StronglySorted str_lt columns
  /\ (forall key, In key columns
                  <-> exists record, In record records /\ In key (dict_keys record))
  /\ (forall data' json_data',
        Forall2 reordered json_data data' -> Permutation data' json_data' ->
        csv_fieldnames (_json_to_records self json_data') = columns).
Proof.
  intros Hfields Hparse Hdata Hd records columns.
  split; [|split; [|split]].
  - unfold convert, bind at 1. unfold lift. rewrite Hparse, Hfields.
    apply _write_csv_rows; [|exact Hd].
    unfold records. rewrite _json_to_records_map.
    destruct json_data; [congruence | discriminate].
  - apply csv_fieldnames_increasing.
  - intros key. apply csv_fieldnames_In.
  - intros data' json_data' Hre Hperm. apply increasing_unique.
    + apply csv_fieldnames_increasing.
    + apply csv_fieldnames_increasing.
    + intros x. unfold columns, records. rewrite !csv_fieldnames_In.
      rewrite (reordered_records_keys self json_data data' x Hre).
      rewrite !_json_to_records_map.
      split; intros [record [Hin Hx]]; exists record; split; try exact Hx.
      * apply (Permutation_in _ (Permutation_map (record_of self) (Permutation_sym Hperm))).
        exact Hin.
      * apply (Permutation_in _ (Permutation_map (record_of self) Hperm)). exact Hin.
Qed.

(** C6 at [[{"b": 1, "a": {"d": 2, "c": 3}}, {"0": 4}]]. *)
Lemma unprojected_columns_are_sorted_union_witness :
  convert sample_runtime default_converter
    (lit "[{'b': 1, 'a': {'d': 2, 'c': 3}}, {'0': 4}]") EmptyString
  = ("0,a.c,a.d,b" ++ LF ++ ",3,2,1" ++ LF ++ "4,,," ++ LF, Ok tt).
Proof.
  destruct (unprojected_columns_are_sorted_union sample_runtime default_converter
              (lit "[{'b': 1, 'a': {'d': 2, 'c': 3}}, {'0': 4}]")
              [JDict [("b", JInt 1); ("a", JDict [("d", JInt 2); ("c", JInt 3)])];
               JDict [("0", JInt 4)]]
              ","%char EmptyString eq_refl) as [Hout _].
  - vm_compute. reflexivity.
  - discriminate.
  - reflexivity.
  - rewrite Hout. vm_compute. reflexivity.
Defined.

(** ** Top-level elements that are no objects *)

(** An element that is neither an object nor a list is wrapped into the
    record its flattening would be. *)
Lemma wrapped_scalar_is_its_flattening self e :
  is_dict e = false -> is_list e = false ->
  record_of self e = _flatten_object self [("value", e)] "".
Proof. intros Hd Hl. destruct e; try reflexivity; discriminate. Qed.

(** C2 on the array [[[1, 2]]]. The element [[1, 2]] is wrapped and not
    flattened: its record holds the list, where the flattening of
    [{"value": [1, 2]}] holds the string [1|2]; the cell written is the
    [str] of the list. *)
Theorem wrapped_list_is_not_flattened :
  _json_to_records default_converter [JList [JInt 1; JInt 2]]
  = [[("value", JList [JInt 1; JInt 2])]]
  /\ _flatten_object default_converter [("value", JList [JInt 1; JInt 2])] ""
     = [("value", JStr "1|2")]
  /\ convert sample_runtime default_converter "[[1, 2]]" EmptyString
     = ("value" ++ LF ++ lit "'[1, 2]'" ++ LF, Ok tt).
Proof. vm_compute. repeat split; reflexivity. Qed.

(** * More of the program *)

(** ** [strip] and [split] *)

Lemma lstrip_head s c r : PyStr.lstrip s = String c r -> PyStr.isspace c = false.
Proof.
  induction s as [|a s IH]; simpl; intros H.
  - discriminate H.
  - destruct (PyStr.isspace a) eqn:E.
    + apply IH. exact H.
    + injection H as Ha _. subst a. exact E.
Qed.

Lemma rstrip_head c s :
  PyStr.isspace c = false -> PyStr.rstrip (String c s) = String c (PyStr.rstrip s).
Proof.
  intros Hc. simpl. destruct (PyStr.rstrip s); [rewrite Hc|]; reflexivity.
Qed.

Lemma rstrip_rstrip s : PyStr.rstrip (PyStr.rstrip s) = PyStr.rstrip s.
Proof.
  induction s as [|c s IH]; simpl.
  - reflexivity.
  - destruct (PyStr.rstrip s) as [|a r] eqn:E.
    + destruct (PyStr.isspace c) eqn:Hc; simpl; [reflexivity | rewrite Hc; reflexivity].
    + change (PyStr.rstrip (String c (String a r))) with
        (match PyStr.rstrip (String a r) with
         | EmptyString => if PyStr.isspace c then EmptyString else String c EmptyString
         | r0 => String c r0
         end).
      rewrite IH. reflexivity.
Qed.

Lemma strip_strip s : PyStr.strip (PyStr.strip s) = PyStr.strip s.
Proof.
  unfold PyStr.strip.
  destruct (PyStr.lstrip s) as [|c r] eqn:E.
  - reflexivity.
  - pose proof (lstrip_head s c r E) as Hc.
    rewrite (rstrip_head c r Hc). simpl PyStr.lstrip. rewrite Hc.
    rewrite <- (rstrip_head c r Hc). apply rstrip_rstrip.
Qed.

Lemma lstrip_keeps_out c s :
  PyStr.contains c s = false -> PyStr.contains c (PyStr.lstrip s) = false.
Proof.
  unfold PyStr.contains. induction s as [|a s IH]; simpl; intros H.
  - reflexivity.
  - apply orb_false_iff in H. destruct H as [Ha Hs].
    destruct (PyStr.isspace a).
    + apply IH. exact Hs.
    + simpl. rewrite Ha, Hs. reflexivity.
Qed.

Lemma rstrip_keeps_out c s :
  PyStr.contains c s = false -> PyStr.contains c (PyStr.rstrip s) = false.
Proof.
  unfold PyStr.contains. induction s as [|a s IH]; simpl; intros H.
  - reflexivity.
  - apply orb_false_iff in H. destruct H as [Ha Hs]. specialize (IH Hs).
    destruct (PyStr.rstrip s) as [|b r].
    + destruct (PyStr.isspace a); simpl; [reflexivity | rewrite Ha; reflexivity].
    + change (PyStr.chars (String a (String b r))) with (a :: PyStr.chars (String b r)).
      simpl existsb. rewrite Ha. exact IH.
Qed.

Lemma split_pieces sep s :
  Forall (fun piece => PyStr.contains sep piece = false) (PyStr.split sep s)
  /\ List.length (PyStr.split sep s)
     = S (List.length (filter (fun c => Ascii.eqb c sep) (PyStr.chars s))).
Proof.
  unfold PyStr.contains. induction s as [|c s [IHout IHlen]]; simpl.
  - split; [constructor; [reflexivity | constructor] | reflexivity].
  - destruct (Ascii.eqb c sep) eqn:E.
    + split.
      * constructor; [reflexivity | exact IHout].
      * simpl. rewrite IHlen. reflexivity.
    + destruct (PyStr.split sep s) as [|piece rest].
      * simpl in IHlen. discriminate IHlen.
      * inversion IHout as [|? ? Hpiece Hrest]; subst. split.
        -- constructor; [|exact Hrest]. simpl. rewrite E. exact Hpiece.
        -- exact IHlen.
Qed.

(** ** The field list of [parse_arguments] *)

(** X13. A non-empty text given to [--fields] becomes one name per piece
    between commas, one more than there are commas; every name is
    stripped of the white space around it and holds no comma. *)
Theorem requested_fields_are_stripped text :
  text <> EmptyString ->
  exists names,
    requested_fields (Some text) = Some names
    /\ List.length names
       = S (List.length (filter (fun c => Ascii.eqb c ",") (PyStr.chars text)))
    /\ Forall (fun name => PyStr.strip name = name
                           /\ PyStr.contains "," name = false) names.
Proof.
  intros Hne. exists (map PyStr.strip (PyStr.split "," text)).
  destruct (split_pieces "," text) as [Hout Hlen].
  split; [|split].
  - destruct text; [congruence | reflexivity].
  - rewrite length_map. exact Hlen.
  - rewrite Forall_map. rewrite Forall_forall in *. intros piece Hpiece. split.
    + apply strip_strip.
    + unfold PyStr.strip. apply rstrip_keeps_out, lstrip_keeps_out.
      apply Hout. exact Hpiece.
Qed.

(** X13 at the text [ b , a,,c ]: four names, the third empty. *)
Lemma requested_fields_are_stripped_witness :
  requested_fields (Some " b , a,,c ") = Some ["b"; "a"; EmptyString; "c"].
Proof.
  destruct (requested_fields_are_stripped " b , a,,c ") as [names [E _]].
  - discriminate.
  - rewrite E. vm_compute in E. injection E as E. rewrite <- E. reflexivity.
Defined.

(** ** NDJSON input *)

Lemma ndjson_lines_objects py lines :
  Forall (passes py) lines ->
  forall line_num records,
    ndjson_lines py line_num lines records = Ok (records ++ line_objects py lines)%list.
Proof.
  induction 1 as [|line lines Hline _ IH]; intros line_num records; simpl.
  - rewrite app_nil_r. reflexivity.
  - destruct Hline as [Hblank | [d Hobj]].
    + rewrite Hblank. apply IH.
    + destruct (PyStr.strip line) as [|c l] eqn:Hstrip.
      * apply IH.
      * rewrite Hobj. simpl. rewrite IH, <- app_assoc. reflexivity.
Qed.

Lemma line_objects_are_objects py lines :
  Forall (passes py) lines -> Forall (fun v => is_dict v = true) (line_objects py lines).
Proof.
  induction 1 as [|line lines Hline _ IH]; simpl.
  - constructor.
  - apply Forall_app. split; [|exact IH].
    destruct Hline as [Hblank | [d Hobj]].
    + rewrite Hblank. constructor.
    + destruct (PyStr.strip line) as [|c l]; [constructor|].
      rewrite Hobj. constructor; [reflexivity | constructor].
Qed.

(** X1. When the whole text is no JSON document and each of its lines is
    blank or an object, the records are the objects of the lines that are
    not blank, in the order of the lines. *)
Theorem ndjson_objects_in_order py input_text e :
  json_loads py (PyStr.strip input_text) = JSONDecodeError e ->
  Forall (passes py) (PyStr.split PyStr.lf (PyStr.strip input_text)) ->
  _parse_json py input_text
  = Ok (line_objects py (PyStr.split PyStr.lf (PyStr.strip input_text)))
  /\ Forall (fun v => is_dict v = true)
       (line_objects py (PyStr.split PyStr.lf (PyStr.strip input_text))).
Proof.
  intros Hload Hlines. split; [|apply line_objects_are_objects; exact Hlines].
  unfold _parse_json. pose proof (strip_strip input_text) as Hstrip.
  destruct (PyStr.strip input_text) as [|c content] eqn:E.
  - reflexivity.
  - rewrite Hload. unfold _parse_ndjson. rewrite Hstrip.
    apply (ndjson_lines_objects py _ Hlines 1 []).
Qed.

(** X1 at two objects with an empty line between them. *)
Lemma ndjson_objects_in_order_witness :
  _parse_json sample_runtime (lit "{'a': 1}" ++ LF ++ LF ++ lit " {'b': 2}" ++ LF)
  = Ok [JDict [("a", JInt 1)]; JDict [("b", JInt 2)]].
Proof.
  destruct (ndjson_objects_in_order sample_runtime
              (lit "{'a': 1}" ++ LF ++ LF ++ lit " {'b': 2}" ++ LF)
              "Extra data: line 3 column 2 (char 11)") as [Hparse _].
  - vm_compute. reflexivity.
  - vm_compute.
    repeat (constructor; [first [left; reflexivity | right; eexists; reflexivity]|]).
    constructor.
  - rewrite Hparse. vm_compute. reflexivity.
Defined.

(** X2. When the lines before a line are blank or objects and that line
    is neither, the NDJSON reading raises. If the line decodes to
    something that is no object, the exception is a [ValueError] that
    names the line by its number, from 1, in the trimmed text, with
    [Expected JSON object]; if the decoder raises [JSONDecodeError], it is
    a [ValueError] that names the line the same way, with [Invalid JSON]
    and the decoder's message; if the decoder raises anything else, that
    exception goes through as it is, with no line number. *)
Theorem ndjson_error_names_trimmed_line py content before line after :
  PyStr.split PyStr.lf (PyStr.strip content) = (before ++ line :: after)%list ->
  Forall (passes py) before ->
  PyStr.strip line <> EmptyString ->
  let n := PyStr.of_nat (S (List.length before)) in
  (forall v, json_loads py (PyStr.strip line) = Decoded v -> is_dict v = false ->
     _parse_ndjson py content = Raise (ValueError ("Line " ++ n ++ ": Expected JSON object")))
  /\ (forall e, json_loads py (PyStr.strip line) = JSONDecodeError e ->
     _parse_ndjson py content = Raise (ValueError ("Line " ++ n ++ ": Invalid JSON - " ++ e)))
  /\ (forall e, json_loads py (PyStr.strip line) = Raised e ->
     _parse_ndjson py content = Raise e).
Proof.
  intros Hsplit Hbefore Hne n.
  destruct (_parse_ndjson_names_line py content before line after Hsplit Hbefore Hne)
    as [Hobject Hinvalid].
  split; [exact Hobject|]. split; [exact Hinvalid|].
  intros e He. unfold _parse_ndjson. rewrite Hsplit.
  destruct (ndjson_lines_pass py before Hbefore 1 (line :: after) []) as [records' E].
  rewrite E. simpl.
  destruct (PyStr.strip line) as [|c l] eqn:Hline; [congruence|].
  rewrite He. reflexivity.
Qed.

(** X2 at a text whose second line is no JSON. *)
Lemma ndjson_error_names_trimmed_line_witness :
  _parse_ndjson sample_runtime (lit "{'a': 1}" ++ LF ++ "oops")
  = Raise (ValueError
             "Line 2: Invalid JSON - Expecting value: line 1 column 1 (char 0)").
Proof.
  destruct (ndjson_error_names_trimmed_line sample_runtime
              (lit "{'a': 1}" ++ LF ++ "oops")
              [lit "{'a': 1}"] "oops" []) as [_ [Hinvalid _]].
  - vm_compute. reflexivity.
  - constructor; [|constructor]. right. eexists. vm_compute. reflexivity.
  - vm_compute. discriminate.
  - apply (Hinvalid "Expecting value: line 1 column 1 (char 0)").
    vm_compute. reflexivity.
Defined.

(** X16. A document that is one object converts as the document that is
    the array of that one object does. *)
Theorem lone_object_is_array_of_one py self text1 text2 d out :
  PyStr.strip text1 <> EmptyString -> PyStr.strip text2 <> EmptyString ->
  json_loads py (PyStr.strip text1) = Decoded (JDict d) ->
  json_loads py (PyStr.strip text2) = Decoded (JList [JDict d]) ->
  convert py self text1 out = convert py self text2 out.
Proof.
  intros H1 H2 Hobject Harray. unfold convert, bind, lift, _parse_json.
  destruct (PyStr.strip text1) as [|c1 s1]; [congruence|].
  destruct (PyStr.strip text2) as [|c2 s2]; [congruence|].
  rewrite Hobject, Harray. reflexivity.
Qed.

(** X16 at [{"a": 1}] and [[{"a": 1}]]. *)
Lemma lone_object_is_array_of_one_witness :
  convert sample_runtime default_converter (lit "{'a': 1}") EmptyString
  = convert sample_runtime default_converter (lit "[{'a': 1}]") EmptyString.
Proof.
  apply (lone_object_is_array_of_one sample_runtime default_converter
           (lit "{'a': 1}") (lit "[{'a': 1}]") [("a", JInt 1)]).
  - vm_compute. discriminate.
  - vm_compute. discriminate.
  - vm_compute. reflexivity.
  - vm_compute. reflexivity.
Defined.

(** ** Failure *)

Lemma convert_raise_inv py self input_text out out' e :
  convert py self input_text out = (out', Raise e) ->
  out' = out
  /\ (_parse_json py input_text = Raise e
      \/ csv_dialect py (delimiter self) = Raise e).
Proof.
  unfold convert, bind at 1. unfold lift.
  destruct (_parse_json py input_text) as [json_data|e0].
  - destruct (match fields self with
              | Some (f :: fs) => _filter_fields (_json_to_records self json_data) (f :: fs)
              | _ => _json_to_records self json_data
              end) as [|r rest].
    + simpl. intros H. discriminate H.
    + destruct (csv_dialect py (delimiter self)) as [d|e0] eqn:Ed.
      * rewrite (_write_csv_rows py self (r :: rest) d out); [|discriminate | exact Ed].
        intros H. discriminate H.
      * unfold _write_csv, bind, lift. rewrite Ed. intros H.
        injection H as Hout He. subst. split; [reflexivity | right; reflexivity].
  - intros H. injection H as Hout He. subst. split; [reflexivity | left; reflexivity].
Qed.

(** X9. On an output stream that accepts every write, a conversion that
    raises has written nothing, and the exception is that of the Parser
    or that of the csv module on the delimiter: once the writer exists,
    nothing in [_write_csv] other than the stream can raise. *)
Theorem failed_conversion_writes_nothing py self input_text out out' e :
  convert py self input_text out = (out', Raise e) ->
  out' = out
  /\ (_parse_json py input_text = Raise e
      \/ csv_dialect py (delimiter self) = Raise e).
Proof. apply convert_raise_inv. Qed.

(** X9 at a delimiter of two characters. *)
Lemma failed_conversion_writes_nothing_witness :
  convert sample_runtime (with_delimiter default_converter ";;") (lit "{'a': 1}") "kept"
  = ("kept", Raise (TypeError (lit "'delimiter' must be a 1-character string"))).
Proof.
  assert (H : convert sample_runtime (with_delimiter default_converter ";;")
                (lit "{'a': 1}") "kept"
              = (fst (convert sample_runtime (with_delimiter default_converter ";;")
                        (lit "{'a': 1}") "kept"),
                 Raise (TypeError (lit "'delimiter' must be a 1-character string"))))
    by (vm_compute; reflexivity).
  destruct (failed_conversion_writes_nothing sample_runtime
              (with_delimiter default_converter ";;") (lit "{'a': 1}") "kept" _ _ H)
    as [Hout _].
  rewrite H, Hout. reflexivity.
Defined.

(** ** [main] *)



(** ** The Projector *)

Lemma dict_get_absent d k : ~ In k (dict_keys d) -> dict_get d k = None.
Proof.
  induction d as [|[k' v] d IH]; simpl; intros Hnot.
  - reflexivity.
  - rewrite dict_get_cons. destruct (String.eqb k' k) eqn:E.
    + apply String.eqb_eq in E. exfalso. apply Hnot. left. exact E.
    + apply IH. intros Hin. apply Hnot. right. exact Hin.
Qed.

Lemma filter_record_get_all requested record key :
  dict_get (filter_record requested record) key
  = if set_mem key requested
    then Some (match dict_get record key with Some v => v | None => JNull end)
    else None.
Proof.
  destruct (set_mem key requested) eqn:E.
  - apply filter_record_get. apply set_mem_In. exact E.
  - apply dict_get_absent. rewrite filter_record_keys, set_update_In. simpl.
    intros [[]|Hin]. apply set_mem_In in Hin. congruence.
Qed.

Lemma fold_left_agree {A B : Type} (f g : A -> B -> A) l :
  (forall a b, In b l -> f a b = g a b) -> forall a, fold_left f l a = fold_left g l a.
Proof.
  induction l as [|b l IH]; intros Hfg a; simpl.
  - reflexivity.
  - rewrite (Hfg a b (or_introl eq_refl)). apply IH.
    intros a' b' Hb'. apply Hfg. right. exact Hb'.
Qed.

(** X3. The Projector gives one record per record, in order; each has
    as keys the requested names, once each, in the order they are first
    requested; a requested name has the value the record had, or [None]
    where the record had none; no other key is there. *)
Theorem projection_keeps_requested_names records requested :
  Forall2
    (fun record projected =>
       dict_keys projected = set_update [] requested
       /\ forall key,
            dict_get projected key
            = if set_mem key requested
              then Some (match dict_get record key with Some v => v | None => JNull end)
              else None)
    records (_filter_fields records requested).
Proof.
  rewrite _filter_fields_map. induction records as [|record records IH]; simpl.
  - constructor.
  - constructor; [|exact IH]. split.
    + apply filter_record_keys.
    + intros key. apply filter_record_get_all.
Qed.

(** X4. Projecting twice onto the same names is projecting once. *)
Theorem projection_is_idempotent records requested :
  _filter_fields (_filter_fields records requested) requested
  = _filter_fields records requested.
Proof.
  rewrite !_filter_fields_map, map_map. apply map_ext. intros record.
  unfold filter_record at 1 3. apply fold_left_agree.
  intros filtered_record field Hfield.
  rewrite (filter_record_get requested record field Hfield).
  destruct (dict_get record field); reflexivity.
Qed.

Lemma projected_rows_of_same_names py self requested1 requested2 records out :
  requested1 <> [] ->
  (forall name, In name requested1 <-> In name requested2) ->
  _write_csv py self (map (filter_record requested1) records) out
  = _write_csv py self (map (filter_record requested2) records) out.
Proof.
  intros Hne Hsame.
  destruct records as [|r records]; [reflexivity|].
  destruct (csv_dialect py (delimiter self)) as [d|e] eqn:Ed.
  - rewrite (_write_csv_rows py self _ d out); [|discriminate | exact Ed].
    rewrite (_write_csv_rows py self
               (map (filter_record requested2) (r :: records)) d out);
      [|discriminate | exact Ed].
    rewrite !projected_fieldnames by discriminate.
    assert (Hcols : sorted (set_update [] requested1) = sorted (set_update [] requested2)).
    { apply sorted_of_same_set.
      - apply set_update_NoDup. constructor.
      - apply set_update_NoDup. constructor.
      - intros x. rewrite !set_update_In. simpl. rewrite Hsame. tauto. }
    rewrite Hcols. unfold csv_rows. rewrite !map_map.
    do 5 f_equal. apply map_ext. intros record.
    apply map_ext_in. intros key Hkey.
    apply sorted_In, set_update_In in Hkey. destruct Hkey as [[]|Hkey].
    unfold dict_get_default.
    rewrite (filter_record_get requested2 record key Hkey).
    rewrite (filter_record_get requested1 record key (proj2 (Hsame key) Hkey)).
    reflexivity.
  - simpl. unfold bind, lift. rewrite Ed. reflexivity.
Qed.

Lemma _write_csv_with_fields py self requested records out :
  _write_csv py (with_fields self requested) records out
  = _write_csv py self records out.
Proof. reflexivity. Qed.

(** X10. The conversion depends on the requested names as a set: two
    field lists that hold the same names, in any order and with any
    repetitions, give the same outcome on every input. *)
Theorem conversion_depends_on_the_set_of_names py self requested1 requested2
    input_text out :
  requested1 <> [] ->
  (forall name, In name requested1 <-> In name requested2) ->
  convert py (with_fields self (Some requested1)) input_text out
  = convert py (with_fields self (Some requested2)) input_text out.
Proof.
  intros Hne Hsame.
  assert (Hne2 : requested2 <> []).
  { destruct requested1 as [|f fs]; [congruence|].
    intros E. subst requested2. apply (proj1 (Hsame f)). left. reflexivity. }
  unfold convert, bind, lift.
  destruct (_parse_json py input_text) as [json_data|e]; [|reflexivity].
  simpl fields. rewrite !_json_to_records_with_fields.
  destruct requested1 as [|f1 fs1]; [congruence|].
  destruct requested2 as [|f2 fs2]; [congruence|].
  rewrite !_filter_fields_map, !_write_csv_with_fields.
  apply (projected_rows_of_same_names py self (f1 :: fs1) (f2 :: fs2)); assumption.
Qed.

(** X10 at the lists [b, a] and [a, b, a]. *)
Lemma conversion_depends_on_the_set_of_names_witness :
  convert sample_runtime (with_fields default_converter (Some ["b"; "a"]))
    (lit "[{'a': 1, 'b': 2, 'c': 3}]") EmptyString
  = convert sample_runtime (with_fields default_converter (Some ["a"; "b"; "a"]))
      (lit "[{'a': 1, 'b': 2, 'c': 3}]") EmptyString.
Proof.
  apply (conversion_depends_on_the_set_of_names sample_runtime default_converter
           ["b"; "a"] ["a"; "b"; "a"]).
  - discriminate.
  - intros name. simpl. tauto.
Defined.

(** ** More on the Flattener *)

Lemma values_set (Q : json -> Prop) k v d :
  Q v -> Forall (fun kv => Q (snd kv)) d -> Forall (fun kv => Q (snd kv)) (dict_set k v d).
Proof.
  intros Hv Hd. induction Hd as [|[k' v'] d Hx Hd IH]; simpl.
  - constructor; [exact Hv | constructor].
  - destruct (String.eqb k' k).
    + constructor; [exact Hv | exact Hd].
    + constructor; [exact Hx | exact IH].
Qed.

Lemma values_update (Q : json -> Prop) a b :
  Forall (fun kv => Q (snd kv)) a -> Forall (fun kv => Q (snd kv)) b ->
  Forall (fun kv => Q (snd kv)) (dict_update a b).
Proof.
  intros Ha Hb. revert a Ha.
  induction Hb as [|[k v] b Hx Hb IH]; intros a Ha; simpl.
  - exact Ha.
  - apply IH. apply values_set; assumption.
Qed.

Lemma flatten_value_scalar self v :
  list_handling self = "join" ->
  forall prefix,
    Forall (fun kv => is_scalar (snd kv) = true) (flatten_value self v prefix).
Proof.
  intros Hjoin.
  induction v as [| | | | | l _ | d IH] using json_nested_ind; intros prefix;
    try (constructor; fail).
  change (Forall (fun kv => is_scalar (snd kv) = true) (_flatten_object self d prefix)).
  rewrite _flatten_object_loop.
  assert (Hacc : Forall (fun kv : string * json => is_scalar (snd kv) = true) [])
    by constructor.
  revert Hacc. generalize (@nil (string * json)) as flattened.
  induction IH as [|[key value] d Hvalue _ IHd]; intros flattened Hacc; simpl.
  - exact Hacc.
  - apply IHd. unfold flatten_item. simpl. simpl in Hvalue.
    destruct value;
      try (apply (values_set (fun v => is_scalar v = true)); [reflexivity | exact Hacc]).
    + unfold flatten_list. rewrite Hjoin. simpl.
      apply (values_set (fun v => is_scalar v = true)); [reflexivity | exact Hacc].
    + apply (values_update (fun v => is_scalar v = true)); [exact Hacc | apply Hvalue].
Qed.

(** X5. Under [join] every value of a flat record is a scalar: null, a
    boolean, a number or a string, never a list and never an object. *)
Theorem join_policy_leaves_scalars self obj prefix :
  list_handling self = "join" ->
  Forall (fun kv => is_scalar (snd kv) = true) (_flatten_object self obj prefix).
Proof.
  intros Hjoin. apply (flatten_value_scalar self (JDict obj) Hjoin prefix).
Qed.

(** X5 at a record with a list of a list and an object in an object. *)
Lemma join_policy_leaves_scalars_witness :
  Forall (fun kv => is_scalar (snd kv) = true)
    (_flatten_object default_converter
       [("a", JList [JList [JInt 1]; JDict [("k", JNull)]]);
        ("b", JDict [("c", JDict [("d", JList [])])])] "").
Proof.
  apply (join_policy_leaves_scalars default_converter
           [("a", JList [JList [JInt 1]; JDict [("k", JNull)]]);
            ("b", JDict [("c", JDict [("d", JList [])])])] "").
  reflexivity.
Defined.

Lemma dict_set_fresh k v d :
  ~ In k (dict_keys d) -> dict_set k v d = (d ++ [(k, v)])%list.
Proof.
  induction d as [|[k' v'] d IH]; simpl; intros Hnot.
  - reflexivity.
  - destruct (String.eqb k' k) eqn:E.
    + apply String.eqb_eq in E. exfalso. apply Hnot. left. exact E.
    + rewrite IH; [reflexivity|]. intros Hin. apply Hnot. right. exact Hin.
Qed.

Lemma flatten_flat_items self obj :
  forall flattened,
    NoDup (dict_keys flattened ++ dict_keys obj)%list ->
    Forall (fun kv => is_scalar (snd kv) = true) obj ->
    fold_left (flatten_item self EmptyString) obj flattened = (flattened ++ obj)%list.
Proof.
  induction obj as [|[key value] obj IH]; intros flattened Hnodup Hscalar; simpl.
  - rewrite app_nil_r. reflexivity.
  - inversion Hscalar as [|? ? Hvalue Hrest]; subst. simpl in Hvalue, Hnodup.
    assert (Hstep : flatten_item self EmptyString flattened (key, value)
                    = (flattened ++ [(key, value)])%list).
    { unfold flatten_item. simpl.
      assert (Hfresh : ~ In key (dict_keys flattened)).
      { intros Hin. apply (NoDup_remove_2 _ _ _ Hnodup).
        apply in_or_app. left. exact Hin. }
      destruct value; try discriminate Hvalue; apply dict_set_fresh; exact Hfresh. }
    rewrite Hstep, IH, <- app_assoc; [reflexivity | | exact Hrest].
    unfold dict_keys in *. rewrite map_app, <- app_assoc. exact Hnodup.
Qed.

(** X6. A record that is flat already, its values scalars and its keys
    distinct, is its own flattening, key order included. *)
Theorem flat_record_is_unchanged self obj :
  NoDup (dict_keys obj) ->
  Forall (fun kv => is_scalar (snd kv) = true) obj ->
  _flatten_object self obj "" = obj.
Proof.
  intros Hnodup Hscalar. rewrite _flatten_object_loop.
  apply (flatten_flat_items self obj [] Hnodup Hscalar).
Qed.

(** X6 at [{"b": 1, "a": "x", "c": null}] under [index]. *)
Lemma flat_record_is_unchanged_witness :
  _flatten_object (with_list_handling default_converter "index")
    [("b", JInt 1); ("a", JStr "x"); ("c", JNull)] ""
  = [("b", JInt 1); ("a", JStr "x"); ("c", JNull)].
Proof.
  apply (flat_record_is_unchanged (with_list_handling default_converter "index")
           [("b", JInt 1); ("a", JStr "x"); ("c", JNull)]).
  - repeat constructor; simpl; intuition discriminate.
  - repeat constructor.
Defined.

Lemma dict_update_NoDup a b :
  NoDup (dict_keys a) -> NoDup (dict_keys (dict_update a b)).
Proof.
  revert a. induction b as [|[k v] b IH]; intros a Ha; simpl.
  - exact Ha.
  - change (dict_update a ((k, v) :: b)) with (dict_update (dict_set k v a) b).
    apply IH. rewrite dict_keys_set. apply set_add_NoDup. exact Ha.
Qed.

Lemma _flatten_object_NoDup self obj prefix :
  NoDup (dict_keys (_flatten_object self obj prefix)).
Proof.
  rewrite _flatten_object_loop, flatten_items_writes.
  apply dict_update_NoDup. constructor.
Qed.

(** X7. Under [join] flattening is idempotent: the flat record of a
    record flattens to itself. *)
Theorem join_flattening_is_idempotent self obj prefix :
  list_handling self = "join" ->
  _flatten_object self (_flatten_object self obj prefix) ""
  = _flatten_object self obj prefix.
Proof.
  intros Hjoin. rewrite _flatten_object_loop.
  apply (flatten_flat_items self (_flatten_object self obj prefix) []).
  - apply _flatten_object_NoDup.
  - apply (flatten_value_scalar self (JDict obj) Hjoin prefix).
Qed.

(** X7 at a nested record. *)
Lemma join_flattening_is_idempotent_witness :
  _flatten_object default_converter
    (_flatten_object default_converter
       [("a", JDict [("b", JList [JInt 1; JInt 2]); ("c", JNull)]); ("d", JInt 3)] "") ""
  = [("a.b", JStr "1|2"); ("a.c", JNull); ("d", JInt 3)].
Proof.
  rewrite (join_flattening_is_idempotent default_converter
             [("a", JDict [("b", JList [JInt 1; JInt 2]); ("c", JNull)]); ("d", JInt 3)]
             "" eq_refl).
  vm_compute. reflexivity.
Defined.

Lemma dict_update_fresh b :
  forall a, NoDup (dict_keys a ++ dict_keys b)%list -> dict_update a b = (a ++ b)%list.
Proof.
  induction b as [|[k v] b IH]; intros a Hnodup; simpl.
  - rewrite app_nil_r. reflexivity.
  - change (dict_update a ((k, v) :: b)) with (dict_update (dict_set k v a) b).
    simpl in Hnodup.
    rewrite dict_set_fresh.
    + rewrite IH, <- app_assoc; [reflexivity|].
      unfold dict_keys in *. rewrite map_app, <- app_assoc. exact Hnodup.
    + intros Hin. apply (NoDup_remove_2 _ _ _ Hnodup). apply in_or_app. left. exact Hin.
Qed.

Lemma new_key_of_nonempty prefix key :
  prefix <> EmptyString -> new_key_of prefix key = prefix ++ "." ++ key.
Proof. destruct prefix; [congruence | reflexivity]. Qed.

Lemma index_pairs_keys new_key value :
  forall i k,
    In k (dict_keys (index_pairs new_key i value)) ->
    exists j, i <= j /\ k = new_key ++ "." ++ PyStr.of_nat j.
Proof.
  induction value as [|item rest IH]; intros i k; simpl.
  - intros [].
  - intros [E|Hin].
    + exists i. split; [lia | symmetry; exact E].
    + destruct (IH (S i) k Hin) as [j [Hj E]]. exists j. split; [lia | exact E].
Qed.

Lemma flatten_value_prefixed self v :
  forall prefix,
    prefix <> EmptyString ->
    forall k, In k (dict_keys (flatten_value self v prefix)) ->
              exists rest, k = prefix ++ "." ++ rest.
Proof.
  induction v as [| | | | | l _ | d IH] using json_nested_ind; intros prefix Hne k Hk;
    try (destruct Hk; fail).
  change (In k (dict_keys (_flatten_object self d prefix))) in Hk.
  apply flat_keys in Hk. destruct Hk as [[key value] [Hitem Hk]].
  rewrite Forall_forall in IH. specialize (IH (key, value) Hitem). simpl in IH.
  unfold item_writes in Hk. simpl in Hk.
  rewrite (new_key_of_nonempty prefix key Hne) in Hk.
  assert (Hhere : k = prefix ++ "." ++ key -> exists rest, k = prefix ++ "." ++ rest).
  { intros E. exists key. exact E. }
  destruct value; try (destruct Hk as [E|[]]; apply Hhere; symmetry; exact E).
  - destruct (String.eqb (list_handling self) "join").
    { destruct Hk as [E|[]]. apply Hhere. symmetry. exact E. }
    destruct (String.eqb (list_handling self) "index").
    + apply index_pairs_keys in Hk. destruct Hk as [j [_ E]].
      exists (key ++ "." ++ PyStr.of_nat j). rewrite E, !str_app_assoc. reflexivity.
    + destruct Hk as [E|[]]. apply Hhere. symmetry. exact E.
  - assert (Hnew : prefix ++ "." ++ key <> EmptyString).
    { destruct prefix; [congruence | discriminate]. }
    destruct (IH (prefix ++ "." ++ key) Hnew k Hk) as [rest E].
    exists (key ++ "." ++ rest). rewrite E, !str_app_assoc. reflexivity.
Qed.

(** X8. Flattening the members of an object under a prefix that is not
    empty yields only keys of the form [prefix.rest]. The prefix is empty
    at the root and also for an object found under the empty key at the
    root: that object is flattened as if its members were the record's
    own, so its keys carry no path. *)
Theorem nested_keys_carry_the_path self obj prefix key :
  (prefix <> EmptyString ->
   In key (dict_keys (_flatten_object self obj prefix)) ->
   exists rest, key = prefix ++ "." ++ rest)
  /\ _flatten_object self [(EmptyString, JDict obj)] "" = _flatten_object self obj "".
Proof.
  split.
  - intros Hne Hkey.
    apply (flatten_value_prefixed self (JDict obj) prefix Hne key Hkey).
  - rewrite (_flatten_object_loop self [(EmptyString, JDict obj)]).
    cbn [fold_left]. unfold flatten_item. simpl.
    apply (dict_update_fresh (_flatten_object self obj EmptyString) []).
    apply _flatten_object_NoDup.
Qed.

(** X8 at the members [{"b": {"c": 1}}] of an object met at key [a], and
    at [{"": {"e": 4}}]. *)
Lemma nested_keys_carry_the_path_witness :
  (exists rest, "a.b.c" = "a" ++ "." ++ rest)
  /\ _flatten_object default_converter [(EmptyString, JDict [("e", JInt 4)])] ""
     = [("e", JInt 4)].
Proof.
  destruct (nested_keys_carry_the_path default_converter
              [("b", JDict [("c", JInt 1)])] "a" "a.b.c") as [Hpath _].
  destruct (nested_keys_carry_the_path default_converter
              [("e", JInt 4)] EmptyString EmptyString) as [_ Hempty].
  split.
  - apply Hpath.
    + discriminate.
    + vm_compute. left. reflexivity.
  - rewrite Hempty. vm_compute. reflexivity.
Defined.

(** *** The [index] policy *)

Lemma of_int_inj z1 z2 : PyStr.of_int z1 = PyStr.of_int z2 -> z1 = z2.
Proof.
  unfold PyStr.of_int. intros E.
  assert (Hok : forall z, Z.to_int z <> Decimal.Pos Decimal.Nil
                          /\ Z.to_int z <> Decimal.Neg Decimal.Nil).
  { intros z. destruct z; simpl; split; try discriminate;
      intros H; injection H as H; apply (Unsigned.to_uint_nonnil _ H). }
  apply (f_equal NilZero.int_of_string) in E.
  rewrite !NilZero.isi in E; try apply Hok.
  injection E as E. apply DecimalZ.to_int_inj. exact E.
Qed.

Lemma of_nat_inj n m : PyStr.of_nat n = PyStr.of_nat m -> n = m.
Proof. unfold PyStr.of_nat. intros E. apply of_int_inj in E. lia. Qed.

Lemma str_app_inj (p a b : string) : p ++ a = p ++ b -> a = b.
Proof.
  induction p as [|c p IH]; simpl; intros E.
  - exact E.
  - injection E as E. apply IH. exact E.
Qed.

Lemma index_pairs_NoDup new_key value :
  forall i, NoDup (dict_keys (index_pairs new_key i value)).
Proof.
  induction value as [|item rest IH]; intros i; simpl.
  - constructor.
  - constructor; [|apply IH].
    intros Hin. apply index_pairs_keys in Hin. destruct Hin as [j [Hj E]].
    apply str_app_inj in E. simpl in E. injection E as E.
    apply of_nat_inj in E. lia.
Qed.

Lemma index_pairs_In new_key value :
  forall i j v,
    nth_error value j = Some v ->
    In (new_key ++ "." ++ PyStr.of_nat (i + j), v) (index_pairs new_key i value).
Proof.
  induction value as [|item rest IH]; intros i j v Hnth.
  - destruct j; discriminate Hnth.
  - destruct j as [|j]; simpl in Hnth.
    + injection Hnth as E. subst item. rewrite Nat.add_0_r. left. reflexivity.
    + right. replace (i + S j) with (S i + j) by lia. apply IH. exact Hnth.
Qed.

Lemma dict_get_In d k v :
  NoDup (dict_keys d) -> In (k, v) d -> dict_get d k = Some v.
Proof.
  induction d as [|[k' v'] d IH]; simpl; intros Hnodup Hin.
  - destruct Hin.
  - rewrite dict_get_cons. inversion Hnodup as [|? ? Hk' Hd]; subst.
    destruct Hin as [E|Hin].
    + injection E as Ek Ev. subst. rewrite String.eqb_refl. reflexivity.
    + destruct (String.eqb k' k) eqn:E.
      * apply String.eqb_eq in E. subst k'. exfalso. apply Hk'.
        apply (in_map fst) in Hin. exact Hin.
      * apply IH; assumption.
Qed.

(** X11. Under [index] a member whose value is a list gives one key per
    element, the member's key followed by a dot and the position from 0,
    with the element as it is for value: a record of that one member
    flattens to exactly these pairs in order, and in any record the
    element at position [i] is found at its key unless a later member
    assigns that key. *)
Theorem index_policy_enumerates self items key value later prefix :
  list_handling self = "index" ->
  _flatten_object self [(key, JList value)] prefix
  = index_pairs (new_key_of prefix key) 0 value
  /\ forall i v,
       nth_error value i = Some v ->
       dict_get (_flatten_object self later prefix)
         (new_key_of prefix key ++ "." ++ PyStr.of_nat i) = None ->
       dict_get (_flatten_object self (items ++ (key, JList value) :: later)%list prefix)
         (new_key_of prefix key ++ "." ++ PyStr.of_nat i) = Some v.
Proof.
  intros Hindex.
  assert (Hstep : forall flattened,
    flatten_item self prefix flattened (key, JList value)
    = dict_update flattened (index_pairs (new_key_of prefix key) 0 value)).
  { intros flattened. unfold flatten_item, flatten_list. simpl.
    rewrite Hindex. simpl. apply index_items_writes. }
  split.
  - rewrite _flatten_object_loop. simpl. rewrite Hstep.
    apply (dict_update_fresh (index_pairs (new_key_of prefix key) 0 value) []).
    apply index_pairs_NoDup.
  - intros i v Hnth Hlater.
    rewrite _flatten_object_loop, fold_left_app. cbn [fold_left].
    rewrite flatten_items_get, Hlater, Hstep, dict_get_update.
    rewrite (dict_get_In (rev (index_pairs (new_key_of prefix key) 0 value))
               (new_key_of prefix key ++ "." ++ PyStr.of_nat i) v).
    + reflexivity.
    + unfold dict_keys. rewrite map_rev. apply NoDup_rev. apply index_pairs_NoDup.
    + apply -> in_rev. apply (index_pairs_In (new_key_of prefix key) value 0 i v Hnth).
Qed.

(** X11 at [{"tags": ["x", {"k": 1}]}]. *)
Lemma index_policy_enumerates_witness :
  _flatten_object (with_list_handling default_converter "index")
    [("tags", JList [JStr "x"; JDict [("k", JInt 1)]])] ""
  = [("tags.0", JStr "x"); ("tags.1", JDict [("k", JInt 1)])]
  /\ dict_get
       (_flatten_object (with_list_handling default_converter "index")
          [("id", JInt 7); ("tags", JList [JStr "x"; JDict [("k", JInt 1)]])] "")
       "tags.1" = Some (JDict [("k", JInt 1)]).
Proof.
  destruct (index_policy_enumerates (with_list_handling default_converter "index")
              [("id", JInt 7)] "tags" [JStr "x"; JDict [("k", JInt 1)]] [] ""
              eq_refl) as [Hone Hget].
  split.
  - exact Hone.
  - apply (Hget 1 (JDict [("k", JInt 1)])); reflexivity.
Defined.

(** ** More on the Writer *)

(** X14. The header is one more row and nothing else: writing with the
    header is writing the row of the column names and then writing
    without the header. *)
Theorem header_is_one_more_row py self records d out :
  records <> [] ->
  csv_dialect py (delimiter self) = Ok d ->
  _write_csv py (with_no_header self false) records out
  = _write_csv py (with_no_header self true) records
      (out ++ writer_record py d (map JStr (csv_fieldnames records))).
Proof.
  intros Hne Hd.
  rewrite (_write_csv_rows py (with_no_header self false) records d out Hne Hd).
  rewrite (_write_csv_rows py (with_no_header self true) records d _ Hne Hd).
  unfold csv_rows. simpl. rewrite str_app_assoc. reflexivity.
Qed.

(** X14 at two records. *)
Lemma header_is_one_more_row_witness :
  _write_csv sample_runtime (with_no_header default_converter false)
    [[("a", JInt 1)]; [("b", JInt 2)]] EmptyString
  = _write_csv sample_runtime (with_no_header default_converter true)
      [[("a", JInt 1)]; [("b", JInt 2)]] ("a,b" ++ LF).
Proof.
  apply (header_is_one_more_row sample_runtime default_converter
           [[("a", JInt 1)]; [("b", JInt 2)]] ","%char EmptyString).
  - discriminate.
  - reflexivity.
Defined.

Lemma writer_record_texts py d row1 row2 :
  map csv_field row1 = map csv_field row2 ->
  writer_record py d row1 = writer_record py d row2.
Proof.
  intros E. rewrite !writer_record_spec. unfold spec_row.
  rewrite <- (length_map csv_field row1), <- (length_map csv_field row2).
  rewrite <- (map_map csv_field (fun text => spec_cell py d _ text) row1).
  rewrite <- (map_map csv_field (fun text => spec_cell py d _ text) row2).
  rewrite E. reflexivity.
Qed.

Lemma blank_value_row py d fieldnames record key value out :
  incl (dict_keys record) fieldnames -> In key fieldnames ->
  dict_get record key = None -> csv_field value = EmptyString ->
  DictWriter_writerow py d fieldnames (dict_set key value record) out
  = DictWriter_writerow py d fieldnames record out.
Proof.
  intros Hincl Hkey Hnone Hvalue.
  rewrite !DictWriter_writerow_known; [|exact Hincl|].
  - do 2 f_equal. apply writer_record_texts. rewrite !map_map.
    apply map_ext. intros k. unfold dict_get_default. rewrite dict_get_set.
    destruct (String.eqb key k) eqn:E; [|reflexivity].
    apply String.eqb_eq in E. subst k. rewrite Hnone, Hvalue. reflexivity.
  - intros k Hk. rewrite dict_keys_set in Hk. apply set_add_In in Hk.
    destruct Hk as [Hk|Hk]; [apply Hincl; exact Hk | subst k; exact Hkey].
Qed.

(** X15. A row cannot tell a missing key from a null or from an empty
    string: for a column the record has no key for, the row written is
    the one written for the record with [None] at that key, and the one
    written for the record with the empty string at that key. *)
Theorem missing_key_is_written_as_empty py d fieldnames record key out :
  incl (dict_keys record) fieldnames -> In key fieldnames ->
  dict_get record key = None ->
  DictWriter_writerow py d fieldnames (dict_set key JNull record) out
  = DictWriter_writerow py d fieldnames record out
  /\ DictWriter_writerow py d fieldnames (dict_set key (JStr EmptyString) record) out
     = DictWriter_writerow py d fieldnames record out.
Proof.
  intros Hincl Hkey Hnone. split.
  - apply blank_value_row; auto.
  - apply blank_value_row; auto.
Qed.

(** X15 at the columns [a, b] and the record [{"a": 1}]. *)
Lemma missing_key_is_written_as_empty_witness :
  DictWriter_writerow sample_runtime ","%char ["a"; "b"]
    [("a", JInt 1); ("b", JNull)] EmptyString
  = ("1," ++ LF, Ok tt)
  /\ DictWriter_writerow sample_runtime ","%char ["a"; "b"]
       [("a", JInt 1); ("b", JStr EmptyString)] EmptyString
     = ("1," ++ LF, Ok tt).
Proof.
  destruct (missing_key_is_written_as_empty sample_runtime ","%char ["a"; "b"]
              [("a", JInt 1)] "b" EmptyString) as [Hnull Hempty].
  - intros k [E|[]]. subst k. left. reflexivity.
  - right. left. reflexivity.
  - reflexivity.
  - split.
    + change ([("a", JInt 1); ("b", JNull)]) with (dict_set "b" JNull [("a", JInt 1)]).
      rewrite Hnull. vm_compute. reflexivity.
    + change ([("a", JInt 1); ("b", JStr EmptyString)])
        with (dict_set "b" (JStr EmptyString) [("a", JInt 1)]).
      rewrite Hempty. vm_compute. reflexivity.
Defined.
